(** * random-ranking: the leaderboard server (server.js)

    A shallow embedding of [server.js]: the Express handlers, the Socket.IO
    connection handler, [getLeaderboard] and [seedDatabase], over an explicit
    model of the MongoDB collections, of the connected sockets and of the
    JavaScript [Number] arithmetic the claim handler performs.

    Each handler is run to completion on the state it finds: the
    interleaving of concurrent handlers at their [await]s is not
    represented. *)

From Stdlib Require Import ZArith NArith List String Ascii Bool Lia.
From Stdlib Require Import Sorted Permutation DecimalString.
Import ListNotations.
Open Scope Z_scope.

(* ================================================================== *)
(** ** JavaScript numbers *)
(* ================================================================== *)

(** A [Number] is an IEEE 754 binary64 value.  The server only forms
    non-negative finite ones from [Math.random]: [mant * 2 ^ expo] with a
    significand of at most 53 bits. *)
Record double := Double { mant : Z; expo : Z }.

Definition representable (d : double) : bool :=
  (0 <=? mant d) && (mant d <? 2 ^ 53) && (-1074 <=? expo d).

(** The value is strictly below one. *)
Definition below_one (d : double) : bool :=
  (mant d =? 0) || ((expo d <? 0) && (mant d <? 2 ^ (- expo d))).

(** Round [M * 2 ^ e] (with [0 <= M]) to the nearest binary64 value, ties to
    even.  Overflow to infinity is not represented: no product or sum of the
    server comes near the largest finite value. *)
Definition round_nearest_even (M e : Z) : double :=
  if M <? 2 ^ 53 then Double M e
  else
    let s := Z.log2 M - 52 in
    let q := M / 2 ^ s in
    let r := M mod 2 ^ s in
    let half := 2 ^ (s - 1) in
    let q' := if (half <? r) || ((r =? half) && Z.odd q) then q + 1 else q in
    if q' =? 2 ^ 53 then Double (2 ^ 52) (e + s + 1) else Double q' (e + s).

(** [x * 10] for a non-negative double [x]. *)
Definition times_ten (x : double) : double :=
  round_nearest_even (mant x * 10) (expo x).

(** [Math.floor] on a non-negative double. *)
Definition Math_floor (d : double) : Z :=
  if 0 <=? expo d then mant d * 2 ^ expo d else mant d / 2 ^ (- expo d).

(** [a + b] on integer-valued Numbers: the exact sum rounded to binary64. *)
Definition number_add (a b : Z) : Z :=
  let z := a + b in
  let d := round_nearest_even (Z.abs z) 0 in
  Z.sgn z * (mant d * 2 ^ expo d).

(** [2 ^ 53], the bound up to which every integer is a Number. *)
Definition MAX_EXACT : Z := 2 ^ 53.

(** What [Math.random()] may return: a double in [0, 1). *)
Definition is_random_draw (r : double) : bool :=
  representable r && below_one r.

(** [Math.floor(Math.random() * 10) + 1], for the draw [r]. *)
Definition random_points (r : double) : Z :=
  number_add (Math_floor (times_ten r)) 1.

(** [String(n)] for an integer [n] of absolute value below [2 ^ 53]: there
    the digits JavaScript prints are the decimal digits of [n].  Beyond,
    JavaScript prints the shortest digits that read back as the same double
    (and an exponent from [1e21] on), which this function does not
    reproduce: see [exact_number]. *)
Definition Number_toString (n : Z) : string :=
  NilZero.string_of_int (Z.to_int n).

(* ================================================================== *)
(** ** Request values and identifiers *)
(* ================================================================== *)

(** The scalar values a field of the parsed JSON body can hold, and
    [undefined] for a field the body does not carry.  A number is given by
    its integer value.  Fractional numbers and array- or object-valued
    fields are outside this model. *)
Inductive JsValue :=
| VUndefined
| VNull
| VBool (b : bool)
| VNumber (n : Z)
| VString (s : string).

(** [!v] *)
Definition falsy (v : JsValue) : bool :=
  match v with
  | VUndefined | VNull => true
  | VBool b => negb b
  | VNumber n => n =? 0
  | VString s => String.eqb s ""
  end.

(** [req.body], as [express.json()] leaves it: the fields of the parsed
    object, each key once. *)
Definition RequestBody := list (string * JsValue).

(** [const { key } = req.body] *)
Fixpoint field (key : string) (body : RequestBody) : JsValue :=
  match body with
  | [] => VUndefined
  | (k, v) :: rest => if String.eqb k key then v else field key rest
  end.

(** A document identifier: the 96-bit value of a BSON ObjectId. *)
Definition ObjectId := N.

Definition hex_digit (c : ascii) : option N :=
  let n := N_of_ascii c in
  if ((48 <=? n) && (n <=? 57))%N then Some (n - 48)%N
  else if ((97 <=? n) && (n <=? 102))%N then Some (n - 87)%N
  else if ((65 <=? n) && (n <=? 70))%N then Some (n - 55)%N
  else None.

Fixpoint parse_hex (acc : N) (s : string) : option N :=
  match s with
  | EmptyString => Some acc
  | String c rest =>
      match hex_digit c with
      | Some d => parse_hex (16 * acc + d)%N rest
      | None => None
      end
  end.

(** Mongoose's cast of a query value to an ObjectId, which goes through
    the value's string form: a string of 24 hexadecimal digits is an
    identifier, any other scalar is a cast error. *)
Definition cast_ObjectId (v : JsValue) : option ObjectId :=
  match v with
  | VString s => if Nat.eqb (String.length s) 24 then parse_hex 0%N s else None
  | _ => None
  end.

(** Mongoose's cast of a value to the schema type [String], the type the
    user schema gives [name].  For a number it is the text of
    [Number_toString], which is the program's within the exact range. *)
Definition cast_String (v : JsValue) : option string :=
  match v with
  | VString s => Some s
  | VNumber n => Some (Number_toString n)
  | VBool true => Some "true"%string
  | VBool false => Some "false"%string
  | VUndefined | VNull => None
  end.

(** The values whose text [cast_String] gives as the program does: every
    string and boolean, and the numbers of absolute value below [2 ^ 53].
    Statements about the text of a stored name are made for these. *)
Definition exact_number (v : JsValue) : bool :=
  match v with
  | VNumber n => Z.abs n <? MAX_EXACT
  | _ => true
  end.

(* ================================================================== *)
(** ** The data model *)
(* ================================================================== *)

(** Modelled from the spec: [models/User.js] is not part of the sources.  A
    user has a generated identifier, a required and unique [name], and
    [totalPoints], a Number that defaults to 0. *)
Module User.
Record t := mk { _id : ObjectId; name : string; totalPoints : Z }.
Definition default_totalPoints : Z := 0.
End User.

(** Modelled from the spec: [models/ClaimHistory.js] is not part of the
    sources.  An entry references a user and records the points of one
    claim; its creation timestamp is not represented. *)
Module ClaimHistory.
Record t := mk { _id : ObjectId; userId : ObjectId; pointsClaimed : Z }.
End ClaimHistory.

(** One object of the array [getLeaderboard] returns. *)
Module Entry.
Record t := mk { rank : Z; name : string; totalPoints : Z; _id : ObjectId }.
End Entry.

(** A value on the wire, as far as leaderboard entries need it. *)
Inductive Json :=
| JNumber (n : Z)
| JString (s : string)
| JObjectId (i : ObjectId).

(** The object literal of [getLeaderboard], key by key, as it is serialised. *)
Definition entry_object (e : Entry.t) : list (string * Json) :=
  [ ("rank"%string, JNumber (Entry.rank e));
    ("name"%string, JString (Entry.name e));
    ("totalPoints"%string, JNumber (Entry.totalPoints e));
    ("_id"%string, JObjectId (Entry._id e)) ].

Definition keys {A : Type} (o : list (string * A)) : list string := map fst o.

Fixpoint property {A : Type} (key : string) (o : list (string * A)) : option A :=
  match o with
  | [] => None
  | (k, v) :: rest => if String.eqb k key then Some v else property key rest
  end.

(** An event pushed to a realtime client. *)
Record Event := mkEvent { event_name : string; payload : list Entry.t }.

(** A connected Socket.IO client and the events delivered to it so far
    (oldest first). *)
Record Socket := mkSocket { socket_id : string; inbox : list Event }.

(** Errors a storage call can be rejected with.  Only [code] is inspected. *)
Inductive Error :=
| CastError
| ValidationError
| DocumentNotFoundError
| MongoServerError (code : Z)
| MongoNetworkError.

Definition error_code (e : Error) : option Z :=
  match e with
  | MongoServerError c => Some c
  | _ => None
  end.

Definition DUPLICATE_KEY : Z := 11000.

(** The calls [server.js] makes to the database. *)
Inductive StorageCall :=
| CallFind            (* User.find({}) *)
| CallFindSorted      (* User.find({}).sort({ totalPoints: -1 }) *)
| CallFindById        (* User.findById(userId) *)
| CallInsertUser      (* newUser.save() *)
| CallUpdateUser      (* user.save() on a loaded document *)
| CallInsertClaim     (* historyRecord.save() *)
| CallCountDocuments  (* User.countDocuments() *)
| CallInsertMany (n : nat).  (* User.insertMany(docs), with docs.length *)

(** Which storage calls fail, and how: the environment's choice. *)
Definition Faults := StorageCall -> option Error.

Definition no_faults : Faults := fun _ => None.

Inductive LogLine :=
| Log (text : string)
| LogError (text : string) (e : Error).

(** The state the server acts on. *)
Record World := mkWorld {
  users : list User.t;            (* the users collection, in natural order *)
  claims : list ClaimHistory.t;   (* the claim-history collection *)
  next_id : ObjectId;             (* the driver's identifier generator *)
  sockets : list Socket;          (* the connected realtime clients *)
  console : list LogLine;         (* console.log / console.error, oldest first *)
  issued : list StorageCall       (* storage calls issued, oldest first *)
}.

Definition set_users (us : list User.t) (w : World) : World :=
  mkWorld us (claims w) (next_id w) (sockets w) (console w) (issued w).
Definition set_claims (cs : list ClaimHistory.t) (w : World) : World :=
  mkWorld (users w) cs (next_id w) (sockets w) (console w) (issued w).
Definition set_next_id (i : ObjectId) (w : World) : World :=
  mkWorld (users w) (claims w) i (sockets w) (console w) (issued w).
Definition set_sockets (ss : list Socket) (w : World) : World :=
  mkWorld (users w) (claims w) (next_id w) ss (console w) (issued w).
Definition set_console (c : list LogLine) (w : World) : World :=
  mkWorld (users w) (claims w) (next_id w) (sockets w) c (issued w).
Definition set_issued (i : list StorageCall) (w : World) : World :=
  mkWorld (users w) (claims w) (next_id w) (sockets w) (console w) i.

(* ================================================================== *)
(** ** Effects: state that survives a rejected promise *)
(* ================================================================== *)

(** An awaited operation either resolves or rejects; what it wrote to the
    world before rejecting stays written. *)
Inductive Outcome (A : Type) :=
| Ok (a : A)
| Throw (e : Error).
Arguments Ok {A} a.
Arguments Throw {A} e.

Definition M (A : Type) : Type := World -> Outcome A * World.

Definition ret {A} (a : A) : M A := fun w => (Ok a, w).

Definition throw {A} (e : Error) : M A := fun w => (Throw e, w).

Definition bind {A B} (m : M A) (k : A -> M B) : M B :=
  fun w =>
    match m w with
    | (Ok a, w') => k a w'
    | (Throw e, w') => (Throw e, w')
    end.

(** [try { m } catch (error) { handler error }] *)
Definition try_catch {A} (m : M A) (handler : Error -> M A) : M A :=
  fun w =>
    match m w with
    | (Ok a, w') => (Ok a, w')
    | (Throw e, w') => handler e w'
    end.

Definition gets {A} (f : World -> A) : M A := fun w => (Ok (f w), w).

Definition modify (f : World -> World) : M unit := fun w => (Ok tt, f w).

Declare Scope js_scope.
Delimit Scope js_scope with js.
Notation "x <- m ;; k" := (bind m (fun x => k))
  (at level 61, m at next level, right associativity) : js_scope.
Notation "m ;; k" := (bind m (fun _ => k))
  (at level 61, right associativity) : js_scope.
Open Scope js_scope.

(** The environment of one handler run: the faults of the storage layer and
    the value [Math.random()] returns. *)
Record Env := mkEnv { faults : Faults; random : double }.

(* ------------------------------------------------------------------ *)
(** *** Console, sockets *)

Definition console_log (text : string) : M unit :=
  modify (fun w => set_console (console w ++ [Log text]) w).

Definition console_error (text : string) (e : Error) : M unit :=
  modify (fun w => set_console (console w ++ [LogError text e]) w).

Definition deliver (ev : Event) (s : Socket) : Socket :=
  mkSocket (socket_id s) (inbox s ++ [ev]).

(** [io.emit(name, data)]: to every connected client. *)
Definition io_emit (name : string) (data : list Entry.t) : M unit :=
  modify (fun w => set_sockets (map (deliver (mkEvent name data)) (sockets w)) w).

(** [socket.emit(name, data)]: to the client [sid] alone. *)
Definition socket_emit (sid : string) (name : string) (data : list Entry.t) : M unit :=
  modify (fun w =>
    set_sockets
      (map (fun s => if String.eqb (socket_id s) sid
                     then deliver (mkEvent name data) s else s)
           (sockets w)) w).

(* ------------------------------------------------------------------ *)
(** *** The storage layer *)

(** Issue a storage call: it is recorded, and rejected when the
    environment says so. *)
Definition call (env : Env) (c : StorageCall) : M unit :=
  fun w =>
    let w' := set_issued (issued w ++ [c]) w in
    match faults env c with
    | Some e => (Throw e, w')
    | None => (Ok tt, w')
    end.

Definition fresh_id : M ObjectId :=
  fun w => (Ok (next_id w), set_next_id (next_id w + 1)%N w).

(** [User.find({})] *)
Definition User_find (env : Env) : M (list User.t) :=
  call env CallFind ;; gets users.

(** Descending order on [totalPoints].  Equal scores keep their stored
    order here; the database promises no order among them, and nothing
    below depends on it. *)
Fixpoint insert_desc (u : User.t) (sorted : list User.t) : list User.t :=
  match sorted with
  | [] => [u]
  | v :: rest =>
      if User.totalPoints u <? User.totalPoints v
      then v :: insert_desc u rest
      else u :: v :: rest
  end.

Definition sort_desc (us : list User.t) : list User.t :=
  fold_right insert_desc [] us.

(** [User.find({}).sort({ totalPoints: -1 })] *)
Definition User_find_sorted (env : Env) : M (list User.t) :=
  call env CallFindSorted ;;
  us <- gets users ;;
  ret (sort_desc us).

Definition has_id (i : ObjectId) (u : User.t) : bool := N.eqb (User._id u) i.

(** [User.findById(userId)]: the value is cast first, which rejects a
    malformed identifier before any query is sent. *)
Definition User_findById (env : Env) (userId : JsValue) : M (option User.t) :=
  match cast_ObjectId userId with
  | None => throw CastError
  | Some i =>
      call env CallFindById ;;
      us <- gets users ;;
      ret (find (has_id i) us)
  end.

(** A document built by [new User({ name })] and not saved yet: the
    identifier is generated, [totalPoints] takes its default, and a name
    that cannot be cast is kept as a pending validation error. *)
Record NewUser := mkNewUser {
  new_id : ObjectId;
  new_name : option string;
  new_totalPoints : Z
}.

Definition new_User (name : JsValue) : M NewUser :=
  i <- fresh_id ;;
  ret (mkNewUser i (cast_String name) User.default_totalPoints).

Definition name_taken (n : string) (us : list User.t) : bool :=
  existsb (fun u => String.eqb (User.name u) n) us.

(** Modelled from the spec: the unique index on [name] is declared in
    [models/User.js], which is not part of the sources.  The database
    rejects a second document of the same name with the duplicate-key
    code, and stores any other document at the end of the collection. *)
Definition insert_user (u : User.t) : M unit :=
  us <- gets users ;;
  if name_taken (User.name u) us
  then throw (MongoServerError DUPLICATE_KEY)
  else modify (set_users (us ++ [u])).

(** [newUser.save()] *)
Definition save_new (env : Env) (d : NewUser) : M User.t :=
  match new_name d with
  | None => throw ValidationError
  | Some n =>
      let u := User.mk (new_id d) n (new_totalPoints d) in
      call env CallInsertUser ;;
      insert_user u ;;
      ret u
  end.

Fixpoint set_points (i : ObjectId) (points : Z) (us : list User.t)
  : option (list User.t) :=
  match us with
  | [] => None
  | u :: rest =>
      if has_id i u
      then Some (User.mk (User._id u) (User.name u) points :: rest)
      else option_map (cons u) (set_points i points rest)
  end.

(** [user.save()] on a loaded document whose [totalPoints] was assigned:
    the new value is written to the stored document of that identifier. *)
Definition save_loaded (env : Env) (u : User.t) : M unit :=
  call env CallUpdateUser ;;
  us <- gets users ;;
  match set_points (User._id u) (User.totalPoints u) us with
  | Some us' => modify (set_users us')
  | None => throw DocumentNotFoundError
  end.

(** [new ClaimHistory({ userId, pointsClaimed })] followed by [save()]. *)
Definition new_ClaimHistory (userId : ObjectId) (pointsClaimed : Z)
  : M ClaimHistory.t :=
  i <- fresh_id ;;
  ret (ClaimHistory.mk i userId pointsClaimed).

Definition save_claim (env : Env) (h : ClaimHistory.t) : M unit :=
  call env CallInsertClaim ;;
  modify (fun w => set_claims (claims w ++ [h]) w).

(** [User.countDocuments()] *)
Definition User_countDocuments (env : Env) : M Z :=
  call env CallCountDocuments ;;
  us <- gets users ;;
  ret (Z.of_nat (List.length us)).

Fixpoint new_Users (docs : list RequestBody) : M (list NewUser) :=
  match docs with
  | [] => ret []
  | doc :: rest =>
      d <- new_User (field "name" doc) ;;
      ds <- new_Users rest ;;
      ret (d :: ds)
  end.

Fixpoint validated (ds : list NewUser) : option (list User.t) :=
  match ds with
  | [] => Some []
  | d :: rest =>
      match new_name d, validated rest with
      | Some n, Some us => Some (User.mk (new_id d) n (new_totalPoints d) :: us)
      | _, _ => None
      end
  end.

Fixpoint insert_ordered (us : list User.t) : M unit :=
  match us with
  | [] => ret tt
  | u :: rest => insert_user u ;; insert_ordered rest
  end.

(** [User.insertMany(docs)]: the documents are built and validated, then
    sent as one ordered batch, which stops at the first rejected insert. *)
Definition User_insertMany (env : Env) (docs : list RequestBody) : M unit :=
  ds <- new_Users docs ;;
  match validated ds with
  | None => throw ValidationError
  | Some us =>
      call env (CallInsertMany (List.length us)) ;;
      insert_ordered us
  end.

(* ================================================================== *)
(** ** server.js *)
(* ================================================================== *)

Inductive ResponseBody :=
| RMessage (message : string)                     (* { message } *)
| RStatus (status : string)                       (* { status } *)
| RUser (user : User.t)                           (* a user document *)
| RUsers (all : list User.t)                      (* an array of user documents *)
| RClaim (message : string) (pointsAwarded : Z) (user : User.t).
                                        (* { message, pointsAwarded, user } *)

Record Response := mkResponse { status : Z; body : ResponseBody }.

(** [res.status(code).json(body)], and [res.json(body)] with the default 200. *)
Definition res_status_json (code : Z) (b : ResponseBody) : M Response :=
  ret (mkResponse code b).
Definition res_json (b : ResponseBody) : M Response :=
  ret (mkResponse 200 b).

(** [users.map((user, index) => ({ rank: index + 1, ... }))] *)
Fixpoint rank_from (index : nat) (us : list User.t) : list Entry.t :=
  match us with
  | [] => []
  | user :: rest =>
      Entry.mk (Z.of_nat index + 1) (User.name user) (User.totalPoints user)
               (User._id user)
      :: rank_from (S index) rest
  end.

Definition getLeaderboard (env : Env) : M (list Entry.t) :=
  us <- User_find_sorted env ;;
  ret (rank_from 0 us).

(** The leaderboard of a user collection, as [getLeaderboard] computes it
    when the read succeeds. *)
Definition leaderboard_of (us : list User.t) : list Entry.t :=
  rank_from 0 (sort_desc us).

Definition LEADERBOARD_UPDATE : string := "leaderboardUpdate".

(** [app.get('/')] *)
Definition get_root : M Response :=
  res_status_json 200 (RMessage "Welcome to the Random Ranking API!").

(** [app.get('/health')] *)
Definition get_health : M Response :=
  res_status_json 200 (RStatus "UP").

(** [app.get('/api/users')] *)
Definition get_api_users (env : Env) : M Response :=
  try_catch
    (us <- User_find env ;;
     res_json (RUsers us))
    (fun _ => res_status_json 500 (RMessage "Error fetching users")).

(** [app.post('/api/users')]: the [try] block, the [catch] block, the handler. *)
Definition post_api_users_try (env : Env) (req_body : RequestBody) : M Response :=
  let name := field "name" req_body in
  if falsy name
  then res_status_json 400 (RMessage "Name is required")
  else
    newUser <- new_User name ;;
    saved <- save_new env newUser ;;
    board <- getLeaderboard env ;;
    io_emit LEADERBOARD_UPDATE board ;;
    res_status_json 201 (RUser saved).

(** [error.code === 11000] *)
Definition is_duplicate_key (error : Error) : bool :=
  match error_code error with
  | Some code => code =? DUPLICATE_KEY
  | None => false
  end.

Definition post_api_users_catch (error : Error) : M Response :=
  if is_duplicate_key error
  then res_status_json 409 (RMessage "Error: This user name already exists.")
  else res_status_json 500 (RMessage "Error adding user").

Definition post_api_users (env : Env) (req_body : RequestBody) : M Response :=
  try_catch (post_api_users_try env req_body) post_api_users_catch.

Definition award_message (points : Z) (name : string) : string :=
  String.append "Awarded "
    (String.append (Number_toString points)
       (String.append " points to " name)).

(** [app.post('/api/claim')]: the [try] block, the [catch] block, the handler. *)
Definition post_api_claim_try (env : Env) (req_body : RequestBody) : M Response :=
  let userId := field "userId" req_body in
  if falsy userId
  then res_status_json 400 (RMessage "User ID is required")
  else
    found <- User_findById env userId ;;
    match found with
    | None => res_status_json 404 (RMessage "User not found")
    | Some loaded =>
        let randomPoints := random_points (random env) in
        let user :=
          User.mk (User._id loaded) (User.name loaded)
                  (number_add (User.totalPoints loaded) randomPoints) in
        save_loaded env user ;;
        historyRecord <- new_ClaimHistory (User._id user) randomPoints ;;
        save_claim env historyRecord ;;
        board <- getLeaderboard env ;;
        io_emit LEADERBOARD_UPDATE board ;;
        res_json (RClaim (award_message randomPoints (User.name user))
                         randomPoints user)
    end.

Definition post_api_claim_catch (error : Error) : M Response :=
  console_error "Claim error:" error ;;
  res_status_json 500 (RMessage "Error claiming points").

Definition post_api_claim (env : Env) (req_body : RequestBody) : M Response :=
  try_catch (post_api_claim_try env req_body) post_api_claim_catch.

(** Socket.IO registers the client, then runs the ['connection'] handler.
    The handler has no [try]: a failed read leaves its promise rejected. *)
Definition on_connection (env : Env) (sid : string) : M unit :=
  modify (fun w => set_sockets (sockets w ++ [mkSocket sid []]) w) ;;
  console_log (String.append "A user connected: " sid) ;;
  board <- getLeaderboard env ;;
  socket_emit sid LEADERBOARD_UPDATE board.

(** The ['disconnect'] handler, after Socket.IO dropped the client. *)
Definition on_disconnect (sid : string) : M unit :=
  modify (fun w =>
    set_sockets
      (filter (fun s => negb (String.eqb (socket_id s) sid)) (sockets w)) w) ;;
  console_log (String.append "User disconnected: " sid).

Definition initialUsers : list string :=
  ["Rahul"; "Kamal"; "Sanak"; "Priya"; "Amit"; "Sunita"; "Vikram"; "Anjali";
   "Deepak"; "Meera"]%string.

(** [seedDatabase()], run once the connection is established. *)
Definition seedDatabase (env : Env) : M unit :=
  try_catch
    (userCount <- User_countDocuments env ;;
     if userCount =? 0
     then
       console_log "No users found, seeding database..." ;;
       let usersToInsert :=
         map (fun name => [("name"%string, VString name)]) initialUsers in
       User_insertMany env usersToInsert ;;
       console_log "Database seeded with 10 users."
     else ret tt)
    (fun error => console_error "Error seeding database:" error).

(* ================================================================== *)
(** ** Orders, batches and sample worlds *)
(* ================================================================== *)

(** [u] is not ranked below [v]. *)
Definition outranks (u v : User.t) : Prop :=
  User.totalPoints u >= User.totalPoints v.

(** Ranks [1; 2; ...; n]. *)
Definition ranks_upto (n : nat) : list Z := map Z.of_nat (seq 1 n).

(** The documents [insertMany] builds from a list of names: identifiers
    in generation order, default points. *)
Fixpoint seeded (i : ObjectId) (names : list string) : list User.t :=
  match names with
  | [] => []
  | n :: rest => User.mk i n User.default_totalPoints :: seeded (i + 1)%N rest
  end.

Fixpoint drafts (i : ObjectId) (names : list string) : list NewUser :=
  match names with
  | [] => []
  | n :: rest => mkNewUser i (Some n) User.default_totalPoints :: drafts (i + 1)%N rest
  end.

Definition name_doc (name : string) : RequestBody := [("name"%string, VString name)].

(** A freshly seeded server with one dashboard connected, a storage layer
    that answers, and [Math.random()] returning one half. *)
Definition seeded_world : World :=
  mkWorld (seeded 1%N initialUsers) [] 11%N [mkSocket "dashboard" []] [] [].

Definition calm : Env := mkEnv no_faults (Double 1 (-1)).

Definition sanak : string := "000000000000000000000003".

Definition claim_by (id : string) : RequestBody := [("userId"%string, VString id)].

Definition signup (name : string) : RequestBody := [("name"%string, VString name)].

Definition nobody : string := "0000000000000000000000ff".

Definition fresh_database : World := mkWorld [] [] 1%N [] [] [].

Definition history_down : Env :=
  mkEnv (fun c => match c with
                  | CallInsertClaim => Some MongoNetworkError
                  | _ => None
                  end)
        (Double 1 (-1)).

(* ================================================================== *)
(** ** Cross-origin policy and startup *)
(* ================================================================== *)

Definition LOCAL_ORIGIN : string := "http://localhost:3000".

(** [allowedOrigins]: the local development origin and
    [process.env.FRONTEND_URL], which is [undefined] when the variable is
    not set. *)
Definition allowedOrigins (frontend_url : option string) : list (option string) :=
  [Some LOCAL_ORIGIN; frontend_url].

(** [!origin], for the [Origin] header of a request ([undefined] when the
    request carries none). *)
Definition no_origin (origin : option string) : bool :=
  match origin with
  | None => true
  | Some s => String.eqb s ""
  end.

Definition same_value (a b : option string) : bool :=
  match a, b with
  | None, None => true
  | Some x, Some y => String.eqb x y
  | _, _ => false
  end.

(** [list.includes(x)] *)
Definition includes (l : list (option string)) (x : option string) : bool :=
  existsb (same_value x) l.

(** What the origin function hands to its callback: [callback(null, true)]
    or [callback(new Error(message))]. *)
Inductive CorsDecision :=
| Allowed
| Refused (message : string).

(** [corsOptions.origin] *)
Definition cors_origin (frontend_url origin : option string) : CorsDecision :=
  if no_origin origin || includes (allowedOrigins frontend_url) origin
  then Allowed
  else Refused "Not allowed by CORS".

(** [mongoose.connect(...).then(...).catch(...)]: [connection] is the error
    the connection attempt is rejected with, if it is. *)
Definition startup (env : Env) (connection : option Error) : M unit :=
  match connection with
  | None =>
      console_log "MongoDB connected successfully" ;;
      seedDatabase env
  | Some err => console_error "MongoDB connection error:" err
  end.

(* ================================================================== *)
(** ** Notions the further properties are stated with *)
(* ================================================================== *)

(** The points the history records for the user [i]. *)
Fixpoint claimed_by (i : ObjectId) (history : list ClaimHistory.t) : Z :=
  match history with
  | [] => 0
  | h :: rest =>
      (if N.eqb (ClaimHistory.userId h) i then ClaimHistory.pointsClaimed h else 0)
      + claimed_by i rest
  end.

(** Every user's points are the sum of the claims recorded for that user. *)
Definition balanced (w : World) : Prop :=
  forall u, In u (users w) ->
            User.totalPoints u = claimed_by (User._id u) (claims w).

(** The user a leaderboard entry stands for. *)
Definition entry_user (e : Entry.t) : User.t :=
  User.mk (Entry._id e) (Entry.name e) (Entry.totalPoints e).

(** All stored points leave room for one more award in the exact range. *)
Definition within_exact_range (us : list User.t) : Prop :=
  forall u, In u us -> Z.abs (User.totalPoints u) + 10 < MAX_EXACT.

(** Every user found by identifier in [before] is found in [after] under
    the same name, with at least the same points. *)
Definition keeps_users (before after : list User.t) : Prop :=
  forall i u,
    find (has_id i) before = Some u ->
    exists u',
      find (has_id i) after = Some u'
      /\ User.name u' = User.name u
      /\ User.totalPoints u <= User.totalPoints u'.

(** [w'] has the users of [w] followed by added ones, distinct names stay
    distinct, and history and sockets are those of [w]. *)
Definition only_appends (w w' : World) : Prop :=
  (exists added, users w' = users w ++ added)
  /\ (NoDup (map User.name (users w)) -> NoDup (map User.name (users w')))
  /\ claims w' = claims w /\ sockets w' = sockets w.

Definition grown_world : World :=
  mkWorld [User.mk 1%N "Rahul" 4; User.mk 2%N "Kamal" 9]
          [ClaimHistory.mk 3%N 2%N 9; ClaimHistory.mk 4%N 1%N 4]
          5%N [mkSocket "dashboard" []] [] [].

Definition rahul : string := "000000000000000000000001".

Definition board_down : Env :=
  mkEnv (fun c => match c with
                  | CallFindSorted => Some MongoNetworkError
                  | _ => None
                  end)
        (Double 1 (-1)).

Definition database_down : Env :=
  mkEnv (fun _ => Some MongoNetworkError) (Double 1 (-1)).

(* ================================================================== *)
(** ** Facts on the number model *)
(* ================================================================== *)

Lemma number_add_exact (a b : Z) :
  Z.abs (a + b) < MAX_EXACT -> number_add a b = a + b.
Proof.
  intros H. unfold number_add, round_nearest_even, MAX_EXACT in *.
  destruct (Z.ltb_spec (Z.abs (a + b)) (2 ^ 53)) as [_ | Hge]; [| lia].
  cbn [mant expo]. rewrite Z.pow_0_r, Z.mul_1_r.
  destruct (Z.sgn_spec (a + b)) as [[? ->] | [[? ->] | [? ->]]]; lia.
Qed.

(** The significand kept by the rounding never exceeds the exact quotient
    rounded up by half a unit. *)
Lemma round_up_bound (M s : Z) :
  0 <= M -> 1 <= s ->
  let q := M / 2 ^ s in
  let r := M mod 2 ^ s in
  let half := 2 ^ (s - 1) in
  (if (half <? r) || ((r =? half) && Z.odd q) then q + 1 else q) * 2 ^ s
  <= M + half.
Proof.
  intros HM Hs q r half.
  assert (Hpow : 2 ^ s = 2 * half).
  { unfold half. rewrite <- Z.pow_succ_r by lia. f_equal. lia. }
  assert (Hhalf : 0 < half) by (unfold half; apply Z.pow_pos_nonneg; lia).
  assert (Hdiv : M = 2 ^ s * q + r) by (apply Z.div_mod; lia).
  assert (Hr : 0 <= r < 2 ^ s) by (apply Z.mod_pos_bound; lia).
  destruct ((half <? r) || ((r =? half) && Z.odd q)) eqn:E.
  - assert (half <= r).
    { apply orb_true_iff in E as [E | E].
      - apply Z.ltb_lt in E. lia.
      - apply andb_true_iff in E as [E _]. apply Z.eqb_eq in E. lia. }
    nia.
  - nia.
Qed.

Lemma floor_times_ten_range (r : double) :
  is_random_draw r = true -> 0 <= Math_floor (times_ten r) <= 9.
Proof.
  destruct r as [m e]. unfold is_random_draw, representable, below_one.
  cbn [mant expo]. intros H.
  apply andb_true_iff in H as [Hrep Hone].
  apply andb_true_iff in Hrep as [Hrep He].
  apply andb_true_iff in Hrep as [Hm0 Hm53].
  apply Z.leb_le in Hm0, He. apply Z.ltb_lt in Hm53.
  unfold times_ten, round_nearest_even. cbn [mant expo].
  apply orb_true_iff in Hone as [Hz | Hone].
  { apply Z.eqb_eq in Hz. subst m. rewrite Z.mul_0_l.
    destruct (Z.ltb_spec 0 (2 ^ 53)) as [_ | Habs]; [| lia].
    unfold Math_floor. cbn [mant expo].
    destruct (Z.leb_spec 0 e); [lia |]. rewrite Z.div_0_l; [lia |].
    apply Z.pow_nonzero; lia. }
  apply andb_true_iff in Hone as [Hneg Hlt].
  apply Z.ltb_lt in Hneg, Hlt.
  set (E := - e) in *.
  assert (HE : 0 < E) by (unfold E; lia).
  assert (HpE : 0 < 2 ^ E) by (apply Z.pow_pos_nonneg; lia).
  destruct (Z.ltb_spec (m * 10) (2 ^ 53)) as [Hsmall | Hbig].
  - (* the product is exact *)
    unfold Math_floor. cbn [mant expo].
    destruct (Z.leb_spec 0 e); [lia |]. fold E.
    split; [apply Z.div_pos; lia |].
    assert (m * 10 / 2 ^ E < 10); [| lia].
    apply Z.div_lt_upper_bound; lia.
  - (* the product is rounded to 53 bits *)
    set (M := m * 10) in *.
    assert (HM : 0 < M) by lia.
    assert (Hlog : 53 <= Z.log2 M <= 56).
    { split.
      - apply Z.log2_le_pow2; lia.
      - assert (Z.log2 M < 57); [| lia].
        apply Z.log2_lt_pow2; [lia |].
        change (2 ^ 57) with (16 * 2 ^ 53). lia. }
    set (s := Z.log2 M - 52) in *.
    assert (Hs : 1 <= s <= 4) by (unfold s; lia).
    pose proof (round_up_bound M s ltac:(lia) ltac:(lia)) as Hup.
    cbv zeta in Hup.
    set (q' := if (2 ^ (s - 1) <? M mod 2 ^ s)
                  || ((M mod 2 ^ s =? 2 ^ (s - 1)) && Z.odd (M / 2 ^ s))
               then M / 2 ^ s + 1 else M / 2 ^ s) in *.
    assert (Hhalf : 2 ^ (s - 1) <= 8).
    { change 8 with (2 ^ 3). apply Z.pow_le_mono_r; lia. }
    assert (Hq0 : 0 <= q').
    { assert (0 <= M / 2 ^ s) by (apply Z.div_pos; [lia | apply Z.pow_pos_nonneg; lia]).
      unfold q'. destruct (_ || _); lia. }
    (* 2 ^ 53 <= 10 * m < 10 * 2 ^ E forces E to be large *)
    assert (HE50 : 50 <= E).
    { destruct (Z.lt_ge_cases E 50) as [Hlt50 |]; [| lia].
      assert (2 ^ E <= 2 ^ 49) by (apply Z.pow_le_mono_r; lia).
      change (2 ^ 53) with (16 * 2 ^ 49) in Hbig. lia. }
    assert (Hsplit : 2 ^ E = 2 ^ s * 2 ^ (E - s)).
    { rewrite <- Z.pow_add_r by lia. f_equal. lia. }
    assert (Hps : 0 < 2 ^ s) by (apply Z.pow_pos_nonneg; lia).
    assert (HpEs : 0 < 2 ^ (E - s)) by (apply Z.pow_pos_nonneg; lia).
    assert (Hq' : q' < 10 * 2 ^ (E - s)) by nia.
    destruct (Z.eqb_spec q' (2 ^ 53)) as [Hovf | Hnovf].
    + unfold Math_floor. cbn [mant expo].
      destruct (Z.leb_spec 0 (e + s + 1)); [lia |].
      replace (- (e + s + 1)) with (E - s - 1) by (unfold E; lia).
      assert (HpEs1 : 0 < 2 ^ (E - s - 1)) by (apply Z.pow_pos_nonneg; lia).
      assert (Hdbl : 2 ^ (E - s) = 2 * 2 ^ (E - s - 1)).
      { rewrite <- Z.pow_succ_r by lia. f_equal. lia. }
      split; [apply Z.div_pos; lia |].
      assert (2 ^ 52 / 2 ^ (E - s - 1) < 10); [| lia].
      apply Z.div_lt_upper_bound; [lia |].
      change (2 ^ 53) with (2 * 2 ^ 52) in Hovf. lia.
    + unfold Math_floor. cbn [mant expo].
      destruct (Z.leb_spec 0 (e + s)); [lia |].
      replace (- (e + s)) with (E - s) by (unfold E; lia).
      split; [apply Z.div_pos; lia |].
      assert (q' / 2 ^ (E - s) < 10); [| lia].
      apply Z.div_lt_upper_bound; lia.
Qed.

Lemma random_points_range (r : double) :
  is_random_draw r = true -> 1 <= random_points r <= 10.
Proof.
  intros H. pose proof (floor_times_ten_range r H) as Hf.
  unfold random_points. rewrite number_add_exact; unfold MAX_EXACT; lia.
Qed.

Example random_points_smallest : random_points (Double 0 0) = 1.
Proof. reflexivity. Qed.

Example random_points_largest :
  random_points (Double (2 ^ 53 - 1) (-53)) = 10.
Proof. vm_compute. reflexivity. Qed.

Example random_points_middle : random_points (Double 1 (-1)) = 6.
Proof. vm_compute. reflexivity. Qed.

(** The double nearest to 0.7 is [6305039478318694 * 2 ^ -53]; its product
    with 10 is a tie that rounds to 7 exactly. *)
Example seven_tenths_times_ten :
  times_ten (Double 6305039478318694 (-53)) = Double (7 * 2 ^ 50) (-50).
Proof. vm_compute. reflexivity. Qed.

(* ================================================================== *)
(** ** The leaderboard *)
(* ================================================================== *)

Lemma insert_desc_perm (u : User.t) (l : list User.t) :
  Permutation (u :: l) (insert_desc u l).
Proof.
  induction l as [| v l IH]; cbn.
  - reflexivity.
  - destruct (User.totalPoints u <? User.totalPoints v).
    + rewrite perm_swap. now constructor.
    + reflexivity.
Qed.

Lemma sort_desc_perm (us : list User.t) : Permutation us (sort_desc us).
Proof.
  induction us as [| u us IH]; cbn.
  - constructor.
  - rewrite <- insert_desc_perm. now constructor.
Qed.

Lemma sort_desc_length (us : list User.t) :
  List.length (sort_desc us) = List.length us.
Proof. symmetry. apply Permutation_length, sort_desc_perm. Qed.

Lemma insert_desc_sorted (u : User.t) (l : list User.t) :
  StronglySorted outranks l -> StronglySorted outranks (insert_desc u l).
Proof.
  induction 1 as [| v l Hl IH Hv]; cbn.
  - repeat constructor.
  - destruct (Z.ltb_spec (User.totalPoints u) (User.totalPoints v)) as [Hlt | Hge].
    + constructor; [exact IH |].
      apply Forall_forall. intros x Hx.
      apply (Permutation_in _ (Permutation_sym (insert_desc_perm u l))) in Hx.
      destruct Hx as [<- | Hx].
      * unfold outranks. lia.
      * rewrite Forall_forall in Hv. now apply Hv.
    + constructor; [now constructor |].
      constructor; [unfold outranks; lia |].
      eapply Forall_impl; [| exact Hv].
      unfold outranks. intros; lia.
Qed.

Lemma sort_desc_sorted (us : list User.t) : StronglySorted outranks (sort_desc us).
Proof.
  induction us as [| u us IH]; cbn.
  - constructor.
  - now apply insert_desc_sorted.
Qed.

Lemma rank_from_length (i : nat) (us : list User.t) :
  List.length (rank_from i us) = List.length us.
Proof. revert i. induction us as [| u us IH]; intros i; cbn; [| rewrite IH]; reflexivity. Qed.

Lemma rank_from_ranks (i : nat) (us : list User.t) :
  map Entry.rank (rank_from i us)
  = map (fun k => Z.of_nat k + 1) (seq i (List.length us)).
Proof.
  revert i. induction us as [| u us IH]; intros i; cbn; [| rewrite IH]; reflexivity.
Qed.

Lemma rank_from_points (i : nat) (us : list User.t) :
  map Entry.totalPoints (rank_from i us) = map User.totalPoints us.
Proof.
  revert i. induction us as [| u us IH]; intros i; cbn; [| rewrite IH]; reflexivity.
Qed.

(** Every entry copies one user of the ranked list. *)
Lemma rank_from_In (i : nat) (us : list User.t) (e : Entry.t) :
  In e (rank_from i us) ->
  exists u, In u us /\ Entry.name e = User.name u
            /\ Entry.totalPoints e = User.totalPoints u
            /\ Entry._id e = User._id u.
Proof.
  revert i. induction us as [| u us IH]; intros i; cbn; [tauto |].
  intros [<- | Hin].
  - exists u. cbn. auto.
  - destruct (IH _ Hin) as (v & Hv & Hrest). exists v. auto.
Qed.

Lemma sorted_points (us : list User.t) :
  StronglySorted outranks us -> StronglySorted Z.ge (map User.totalPoints us).
Proof.
  induction 1 as [| u us Hs IH Hu]; cbn; constructor; [exact IH |].
  apply Forall_map. exact Hu.
Qed.

Lemma ranks_upto_shift (n : nat) :
  map (fun k => Z.of_nat k + 1) (seq 0 n) = ranks_upto n.
Proof.
  unfold ranks_upto. rewrite <- seq_shift, map_map.
  apply map_ext. intros k. lia.
Qed.

Lemma leaderboard_ranks (us : list User.t) :
  map Entry.rank (leaderboard_of us) = ranks_upto (List.length us).
Proof.
  unfold leaderboard_of.
  now rewrite rank_from_ranks, sort_desc_length, ranks_upto_shift.
Qed.

Lemma leaderboard_descending (us : list User.t) :
  StronglySorted Z.ge (map Entry.totalPoints (leaderboard_of us)).
Proof.
  unfold leaderboard_of. rewrite rank_from_points.
  apply sorted_points, sort_desc_sorted.
Qed.

Lemma leaderboard_length (us : list User.t) :
  List.length (leaderboard_of us) = List.length us.
Proof. unfold leaderboard_of. now rewrite rank_from_length, sort_desc_length. Qed.

Lemma leaderboard_scores (us : list User.t) :
  Permutation (map Entry.totalPoints (leaderboard_of us)) (map User.totalPoints us).
Proof.
  unfold leaderboard_of. rewrite rank_from_points.
  apply Permutation_map, Permutation_sym, sort_desc_perm.
Qed.

Lemma leaderboard_In (us : list User.t) (e : Entry.t) :
  In e (leaderboard_of us) ->
  exists u, In u us /\ Entry.name e = User.name u
            /\ Entry.totalPoints e = User.totalPoints u
            /\ Entry._id e = User._id u.
Proof.
  unfold leaderboard_of. intros Hin.
  destruct (rank_from_In _ _ _ Hin) as (u & Hu & Hrest).
  exists u. split; [| exact Hrest].
  eapply Permutation_in; [apply Permutation_sym, sort_desc_perm | exact Hu].
Qed.

(* ================================================================== *)
(** ** Running the handlers *)
(* ================================================================== *)

(** Unfold the monadic plumbing of a handler, leaving the tests on the
    request, the store and the environment in place. *)
Ltac unfold_handler :=
  cbv beta iota zeta delta
    [post_api_users post_api_users_try post_api_users_catch
     post_api_claim post_api_claim_try post_api_claim_catch
     get_api_users on_connection seedDatabase
     getLeaderboard User_find User_find_sorted User_findById
     User_countDocuments save_new save_loaded save_claim insert_user
     new_User new_ClaimHistory fresh_id call
     io_emit socket_emit console_log console_error
     res_status_json res_json
     try_catch bind ret throw gets modify
     set_users set_claims set_next_id set_sockets set_console set_issued
     users claims next_id sockets console issued
     new_id new_name new_totalPoints
     User._id User.name User.totalPoints User.default_totalPoints].

Lemma getLeaderboard_ok (env : Env) (w : World) :
  faults env CallFindSorted = None ->
  getLeaderboard env w
  = (Ok (leaderboard_of (users w)),
     set_issued (issued w ++ [CallFindSorted]) w).
Proof.
  intros H. unfold getLeaderboard, User_find_sorted, bind, call, gets, ret.
  rewrite H. reflexivity.
Qed.

Lemma getLeaderboard_result (env : Env) (w w' : World) (board : list Entry.t) :
  getLeaderboard env w = (Ok board, w') ->
  board = leaderboard_of (users w) /\ users w' = users w /\ sockets w' = sockets w.
Proof.
  unfold getLeaderboard, User_find_sorted, bind, call, gets, ret.
  destruct (faults env CallFindSorted); intros H; inversion H; subst.
  cbn. auto.
Qed.

(** A well-formed identifier is a non-empty string, hence truthy. *)
Lemma cast_ObjectId_truthy (v : JsValue) (i : ObjectId) :
  cast_ObjectId v = Some i -> falsy v = false.
Proof.
  destruct v as [| | b | n | s]; cbn; try discriminate.
  destruct s; cbn; [discriminate | reflexivity].
Qed.

Lemma has_id_eq (i : ObjectId) (u : User.t) : has_id i u = true -> User._id u = i.
Proof. unfold has_id. apply N.eqb_eq. Qed.

Lemma find_has_id (i : ObjectId) (us : list User.t) (u : User.t) :
  find (has_id i) us = Some u -> User._id u = i /\ In u us.
Proof.
  intros H. apply find_some in H as [Hin Hid]. split; [now apply has_id_eq | exact Hin].
Qed.

(** Writing the points of a stored user: it succeeds, the user is found
    again with the new points, and nobody else is touched. *)
Lemma set_points_found (i : ObjectId) (p : Z) (us : list User.t) (u : User.t) :
  find (has_id i) us = Some u ->
  exists us',
    set_points i p us = Some us'
    /\ find (has_id i) us' = Some (User.mk (User._id u) (User.name u) p)
    /\ (forall j, j <> i -> find (has_id j) us' = find (has_id j) us)
    /\ map User.name us' = map User.name us
    /\ List.length us' = List.length us.
Proof.
  induction us as [| v us IH]; cbn; [discriminate |].
  destruct (has_id i v) eqn:Hv.
  - intros [= ->]. eexists. split; [reflexivity |].
    pose proof (has_id_eq _ _ Hv) as Hid.
    repeat split.
    + cbn. unfold has_id at 1. cbn. now rewrite Hid, N.eqb_refl.
    + intros j Hj. cbn. unfold has_id. cbn.
      destruct (N.eqb_spec (User._id u) j); [congruence | reflexivity].
  - intros Hfind. destruct (IH Hfind) as (us' & -> & Hf & Hothers & Hnames & Hlen).
    eexists. split; [reflexivity |]. cbn. rewrite Hv.
    repeat split; auto.
    + intros j Hj. rewrite (Hothers j Hj). reflexivity.
    + now rewrite Hnames.
Qed.

(** What a successful claim did: the whole effect of a 200 response. *)
Lemma post_api_claim_success (env : Env) (req_body : RequestBody)
      (w w' : World) (r : Response) :
  post_api_claim env req_body w = (Ok r, w') ->
  status r = 200 ->
  exists i loaded us',
    cast_ObjectId (field "userId" req_body) = Some i
    /\ find (has_id i) (users w) = Some loaded
    /\ let points := random_points (random env) in
       let user := User.mk (User._id loaded) (User.name loaded)
                     (number_add (User.totalPoints loaded) points) in
       set_points (User._id loaded) (User.totalPoints user) (users w) = Some us'
       /\ users w' = us'
       /\ claims w' = claims w ++ [ClaimHistory.mk (next_id w) (User._id loaded) points]
       /\ sockets w'
          = map (deliver (mkEvent LEADERBOARD_UPDATE (leaderboard_of us'))) (sockets w)
       /\ r = mkResponse 200
                (RClaim (award_message points (User.name loaded)) points user).
Proof.
  unfold_handler.
  destruct (falsy (field "userId" req_body));
    [intros [= <- <-]; discriminate |].
  destruct (cast_ObjectId (field "userId" req_body)) as [i |];
    [| intros [= <- <-]; discriminate].
  destruct (faults env CallFindById); [intros [= <- <-]; discriminate |].
  destruct w as [us cs nid ss con iss]. cbn beta iota.
  destruct (find (has_id i) us) as [loaded |] eqn:Hfind;
    [| intros [= <- <-]; discriminate].
  destruct (faults env CallUpdateUser); [intros [= <- <-]; discriminate |].
  destruct (set_points _ _ us) as [us' |] eqn:Hset;
    [| intros [= <- <-]; discriminate].
  destruct (faults env CallInsertClaim); [intros [= <- <-]; discriminate |].
  destruct (faults env CallFindSorted); [intros [= <- <-]; discriminate |].
  intros [= <- <-] _.
  exists i, loaded, us'. cbn. destruct loaded; cbn in *. auto 10.
Qed.

(** What a successful registration did: the whole effect of a 201 response. *)
Lemma post_api_users_created (env : Env) (req_body : RequestBody)
      (w w' : World) (r : Response) :
  post_api_users env req_body w = (Ok r, w') ->
  status r = 201 ->
  exists n,
    falsy (field "name" req_body) = false
    /\ cast_String (field "name" req_body) = Some n
    /\ name_taken n (users w) = false
    /\ let created := User.mk (next_id w) n 0 in
       users w' = users w ++ [created]
       /\ claims w' = claims w
       /\ sockets w'
          = map (deliver (mkEvent LEADERBOARD_UPDATE (leaderboard_of (users w'))))
                (sockets w)
       /\ r = mkResponse 201 (RUser created).
Proof.
  unfold_handler.
  destruct (falsy (field "name" req_body)); [intros [= <- <-]; discriminate |].
  destruct (cast_String (field "name" req_body)) as [n |].
  2: { cbn. intros [= <- <-]; discriminate. }
  destruct (faults env CallInsertUser) as [e |].
  { destruct (is_duplicate_key e); intros [= <- <-]; discriminate. }
  destruct w as [us cs nid ss con iss]. cbn beta iota.
  destruct (name_taken n us) eqn:Htaken.
  { cbn. intros [= <- <-]; discriminate. }
  destruct (faults env CallFindSorted) as [e |].
  { destruct (is_duplicate_key e); intros [= <- <-]; discriminate. }
  intros [= <- <-] _. exists n. cbn. auto 10.
Qed.

(** The registration of a free name, when the storage layer answers. *)
Lemma post_api_users_free_name (env : Env) (req_body : RequestBody)
      (w : World) (n : string) :
  falsy (field "name" req_body) = false ->
  cast_String (field "name" req_body) = Some n ->
  name_taken n (users w) = false ->
  faults env CallInsertUser = None ->
  faults env CallFindSorted = None ->
  let created := User.mk (next_id w) n 0 in
  let us' := users w ++ [created] in
  post_api_users env req_body w
  = (Ok (mkResponse 201 (RUser created)),
     mkWorld us' (claims w) (next_id w + 1)%N
       (map (deliver (mkEvent LEADERBOARD_UPDATE (leaderboard_of us'))) (sockets w))
       (console w)
       ((issued w ++ [CallInsertUser]) ++ [CallFindSorted])).
Proof.
  intros Hfalsy Hcast Hfree Hins Hsort.
  unfold_handler. rewrite Hfalsy, Hcast, Hins.
  destruct w as [us cs nid ss con iss]. cbn beta iota in *.
  cbn [users] in Hfree. rewrite Hfree, Hsort. reflexivity.
Qed.

(** The registration of a name that is held: the insert is issued and the
    unique index rejects it. *)
Lemma post_api_users_held_name (env : Env) (req_body : RequestBody)
      (w : World) (n : string) :
  falsy (field "name" req_body) = false ->
  cast_String (field "name" req_body) = Some n ->
  name_taken n (users w) = true ->
  faults env CallInsertUser = None ->
  post_api_users_try env req_body w
  = (Throw (MongoServerError DUPLICATE_KEY),
     mkWorld (users w) (claims w) (next_id w + 1)%N (sockets w) (console w)
             (issued w ++ [CallInsertUser])).
Proof.
  intros Hfalsy Hcast Htaken Hins.
  unfold_handler. rewrite Hfalsy, Hcast, Hins.
  destruct w as [us cs nid ss con iss]. cbn beta iota in *.
  cbn [users] in Htaken. rewrite Htaken. reflexivity.
Qed.

(** A 409 is only ever answered to an error thrown in the [try] block
    whose code is the duplicate-key code. *)
Lemma post_api_users_conflict_origin (env : Env) (req_body : RequestBody)
      (w w' : World) (r : Response) :
  post_api_users env req_body w = (Ok r, w') ->
  status r = 409 ->
  exists error,
    post_api_users_try env req_body w = (Throw error, w')
    /\ error_code error = Some DUPLICATE_KEY.
Proof.
  unfold post_api_users, try_catch.
  destruct (post_api_users_try env req_body w) as [[r0 | error] w0] eqn:Htry.
  - intros [= <- <-] Hstatus. exfalso. revert Htry.
    unfold_handler.
    repeat match goal with
           | |- context [match ?c with _ => _ end] =>
               lazymatch c with
               | w => fail
               | _ => destruct c
               end
           end;
    intros [= <- _]; discriminate.
  - unfold post_api_users_catch, res_status_json, ret.
    destruct (is_duplicate_key error) eqn:Hdup; intros [= <- <-] Hstatus;
      [| discriminate].
    exists error. split; [reflexivity |].
    unfold is_duplicate_key in Hdup.
    destruct (error_code error) as [c |]; [| discriminate].
    apply Z.eqb_eq in Hdup. now subst.
Qed.

Lemma get_api_users_ok (env : Env) (w : World) :
  faults env CallFind = None ->
  get_api_users env w
  = (Ok (mkResponse 200 (RUsers (users w))), set_issued (issued w ++ [CallFind]) w).
Proof. intros H. unfold_handler. rewrite H. destruct w; reflexivity. Qed.

(** A claim whose identifier is well formed, up to the lookup. *)
Lemma post_api_claim_not_found (env : Env) (req_body : RequestBody)
      (w : World) (i : ObjectId) :
  cast_ObjectId (field "userId" req_body) = Some i ->
  find (has_id i) (users w) = None ->
  faults env CallFindById = None ->
  post_api_claim env req_body w
  = (Ok (mkResponse 404 (RMessage "User not found")),
     set_issued (issued w ++ [CallFindById]) w).
Proof.
  intros Hcast Hfind Hfault.
  pose proof (cast_ObjectId_truthy _ _ Hcast) as Htruthy.
  unfold_handler. rewrite Htruthy, Hcast, Hfault.
  destruct w as [us cs nid ss con iss]. cbn beta iota in *.
  cbn [users] in Hfind. rewrite Hfind. reflexivity.
Qed.

Lemma post_api_claim_missing_id (env : Env) (req_body : RequestBody) (w : World) :
  falsy (field "userId" req_body) = true ->
  post_api_claim env req_body w
  = (Ok (mkResponse 400 (RMessage "User ID is required")), w).
Proof. intros H. unfold_handler. rewrite H. reflexivity. Qed.

Lemma post_api_claim_cast_error (env : Env) (req_body : RequestBody) (w : World) :
  falsy (field "userId" req_body) = false ->
  cast_ObjectId (field "userId" req_body) = None ->
  post_api_claim env req_body w
  = (Ok (mkResponse 500 (RMessage "Error claiming points")),
     set_console (console w ++ [LogError "Claim error:" CastError]) w).
Proof.
  intros Htruthy Hcast. unfold_handler. rewrite Htruthy, Hcast.
  destruct w; reflexivity.
Qed.

(** A claim whose points update is stored and whose history insert is
    rejected with [e]. *)
Lemma post_api_claim_history_rejected (env : Env) (req_body : RequestBody)
      (w : World) (i : ObjectId) (loaded : User.t) (us' : list User.t) (e : Error) :
  cast_ObjectId (field "userId" req_body) = Some i ->
  find (has_id i) (users w) = Some loaded ->
  set_points (User._id loaded)
    (number_add (User.totalPoints loaded) (random_points (random env)))
    (users w) = Some us' ->
  faults env CallFindById = None ->
  faults env CallUpdateUser = None ->
  faults env CallInsertClaim = Some e ->
  post_api_claim env req_body w
  = (Ok (mkResponse 500 (RMessage "Error claiming points")),
     mkWorld us' (claims w) (next_id w + 1)%N (sockets w)
       (console w ++ [LogError "Claim error:" e])
       (((issued w ++ [CallFindById]) ++ [CallUpdateUser]) ++ [CallInsertClaim])).
Proof.
  intros Hcast Hfind Hset Hf1 Hf2 Hf3.
  pose proof (cast_ObjectId_truthy _ _ Hcast) as Htruthy.
  unfold_handler. rewrite Htruthy, Hcast, Hf1.
  destruct w as [us cs nid ss con iss]. cbn beta iota in *.
  cbn [users] in Hfind, Hset. rewrite Hfind, Hf2.
  destruct loaded as [lid lname lpoints]. cbn beta iota in *.
  cbn [User._id User.totalPoints] in Hset. rewrite Hset, Hf3. reflexivity.
Qed.

(** A claim that meets no rejected storage call. *)
Lemma post_api_claim_awarded (env : Env) (req_body : RequestBody)
      (w : World) (i : ObjectId) (loaded : User.t) (us' : list User.t) :
  cast_ObjectId (field "userId" req_body) = Some i ->
  find (has_id i) (users w) = Some loaded ->
  let points := random_points (random env) in
  let user := User.mk (User._id loaded) (User.name loaded)
                (number_add (User.totalPoints loaded) points) in
  set_points (User._id loaded) (User.totalPoints user) (users w) = Some us' ->
  faults env CallFindById = None ->
  faults env CallUpdateUser = None ->
  faults env CallInsertClaim = None ->
  faults env CallFindSorted = None ->
  post_api_claim env req_body w
  = (Ok (mkResponse 200
           (RClaim (award_message points (User.name loaded)) points user)),
     mkWorld us'
       (claims w ++ [ClaimHistory.mk (next_id w) (User._id loaded) points])
       (next_id w + 1)%N
       (map (deliver (mkEvent LEADERBOARD_UPDATE (leaderboard_of us'))) (sockets w))
       (console w)
       ((((issued w ++ [CallFindById]) ++ [CallUpdateUser]) ++ [CallInsertClaim])
          ++ [CallFindSorted])).
Proof.
  intros Hcast Hfind points user Hset Hf1 Hf2 Hf3 Hf4.
  pose proof (cast_ObjectId_truthy _ _ Hcast) as Htruthy.
  subst points user. revert Hset.
  unfold_handler. rewrite Htruthy, Hcast, Hf1.
  destruct w as [us cs nid ss con iss]. cbn beta iota in *.
  cbn [users] in Hfind. rewrite Hfind, Hf2.
  destruct loaded as [lid lname lpoints]. cbn beta iota in *.
  intros Hset. rewrite Hset, Hf3, Hf4. reflexivity.
Qed.

(** The connection of a client whose id no connected client has. *)
Lemma on_connection_ok (env : Env) (sid : string) (w : World) :
  faults env CallFindSorted = None ->
  existsb (fun s => String.eqb (socket_id s) sid) (sockets w) = false ->
  on_connection env sid w
  = (Ok tt,
     mkWorld (users w) (claims w) (next_id w)
       (sockets w
          ++ [mkSocket sid [mkEvent LEADERBOARD_UPDATE (leaderboard_of (users w))]])
       (console w ++ [Log (String.append "A user connected: " sid)])
       (issued w ++ [CallFindSorted])).
Proof.
  intros Hfault Hnew. unfold_handler. rewrite Hfault.
  destruct w as [us cs nid ss con iss]. cbn beta iota in *.
  cbn [sockets] in Hnew. do 2 f_equal.
  rewrite map_app. cbn. rewrite String.eqb_refl. f_equal.
  induction ss as [| s ss IH]; cbn in *; [reflexivity |].
  apply orb_false_iff in Hnew as [Hs Hss].
  rewrite Hs. f_equal. now apply IH.
Qed.

Lemma new_Users_named (names : list string) (w : World) :
  new_Users (map name_doc names) w
  = (Ok (drafts (next_id w) names),
     set_next_id (next_id w + N.of_nat (List.length names))%N w).
Proof.
  revert w. induction names as [| n names IH]; intros w.
  - cbn [map new_Users drafts List.length N.of_nat]. unfold ret.
    rewrite N.add_0_r. destruct w; reflexivity.
  - cbn [map new_Users drafts]. unfold bind at 1. unfold new_User, bind, fresh_id, ret.
    rewrite IH. destruct w as [us cs nid ss con iss].
    unfold set_next_id. cbn [users claims next_id sockets console issued].
    cbn [List.length]. rewrite Nat2N.inj_succ.
    replace (nid + N.succ (N.of_nat (List.length names)))%N
      with (nid + 1 + N.of_nat (List.length names))%N by lia.
    reflexivity.
Qed.

Lemma validated_drafts (i : ObjectId) (names : list string) :
  validated (drafts i names) = Some (seeded i names).
Proof.
  revert i. induction names as [| n names IH]; intros i; cbn; [reflexivity |].
  now rewrite IH.
Qed.

Lemma seeded_names (i : ObjectId) (names : list string) :
  map User.name (seeded i names) = names.
Proof. revert i. induction names as [| n names IH]; intros i; cbn; [| rewrite IH]; reflexivity. Qed.

Lemma seeded_points (i : ObjectId) (names : list string) :
  Forall (fun u => User.totalPoints u = 0) (seeded i names).
Proof. revert i. induction names as [| n names IH]; intros i; cbn; constructor; auto. Qed.

Lemma seeded_length (i : ObjectId) (names : list string) :
  List.length (seeded i names) = List.length names.
Proof. rewrite <- (seeded_names i names) at 2. now rewrite length_map. Qed.

Lemma name_taken_In (n : string) (us : list User.t) :
  name_taken n us = true <-> In n (map User.name us).
Proof.
  unfold name_taken. rewrite existsb_exists, in_map_iff. split.
  - intros (u & Hin & Heq). apply String.eqb_eq in Heq. now exists u.
  - intros (u & Heq & Hin). exists u. split; [exact Hin |]. now apply String.eqb_eq.
Qed.

(** An ordered batch of pairwise distinct names, none of them held, is
    appended whole. *)
Lemma insert_ordered_fresh (batch : list User.t) (w : World) :
  NoDup (map User.name batch) ->
  (forall n, In n (map User.name batch) -> ~ In n (map User.name (users w))) ->
  insert_ordered batch w = (Ok tt, set_users (users w ++ batch) w).
Proof.
  revert w. induction batch as [| u batch IH]; intros w Hnodup Hfree.
  - cbn. unfold ret. rewrite app_nil_r. destruct w; reflexivity.
  - cbn [insert_ordered]. unfold bind at 1. unfold insert_user, bind, gets, modify.
    destruct (name_taken (User.name u) (users w)) eqn:Htaken.
    { apply name_taken_In in Htaken. exfalso. apply (Hfree (User.name u)); cbn; auto. }
    inversion Hnodup as [| ? ? Hnotin Hnodup']; subst.
    rewrite IH.
    + destruct w as [us cs nid ss con iss]. cbn. now rewrite <- app_assoc.
    + exact Hnodup'.
    + intros n Hn. destruct w as [us cs nid ss con iss]. cbn.
      rewrite map_app, in_app_iff. cbn. intros [Hold | [<- | []]].
      * apply (Hfree n); cbn; auto.
      * contradiction.
Qed.

Lemma initialUsers_distinct : NoDup initialUsers.
Proof.
  unfold initialUsers.
  repeat match goal with
         | |- NoDup _ => constructor
         | |- ~ In _ _ => cbn; intuition discriminate
         end.
Qed.

(** An empty collection is seeded by one batch of ten documents. *)
Lemma seedDatabase_empty (env : Env) (w : World) :
  users w = [] ->
  faults env CallCountDocuments = None ->
  faults env (CallInsertMany 10) = None ->
  seedDatabase env w
  = (Ok tt,
     mkWorld (seeded (next_id w) initialUsers) (claims w) (next_id w + 10)%N
       (sockets w)
       ((console w ++ [Log "No users found, seeding database..."])
                   ++ [Log "Database seeded with 10 users."])
       ((issued w ++ [CallCountDocuments]) ++ [CallInsertMany 10])).
Proof.
  destruct w as [us cs nid ss con iss]. cbn [users next_id claims sockets console issued].
  intros -> Hcount Hmany.
  unfold seedDatabase, try_catch, bind, User_countDocuments, call, gets, ret.
  rewrite Hcount.
  unfold set_issued, console_log, modify, User_insertMany, bind.
  cbn [users claims next_id sockets console issued List.length Z.of_nat Z.eqb].
  change (map (fun name => [("name"%string, VString name)]) initialUsers)
    with (map name_doc initialUsers).
  rewrite new_Users_named, validated_drafts.
  unfold call. rewrite seeded_length.
  change (List.length initialUsers) with 10%nat. rewrite Hmany.
  rewrite insert_ordered_fresh.
  - reflexivity.
  - rewrite seeded_names. exact initialUsers_distinct.
  - cbn. tauto.
Qed.

(** A collection that holds a user is left alone, whatever the storage
    layer answers. *)
Lemma seedDatabase_nonempty (env : Env) (w : World) :
  users w <> [] ->
  let w' := snd (seedDatabase env w) in
  users w' = users w /\ claims w' = claims w /\ next_id w' = next_id w
  /\ sockets w' = sockets w
  /\ issued w' = issued w ++ [CallCountDocuments].
Proof.
  destruct w as [us cs nid ss con iss]. cbn [users]. intros Hne.
  unfold seedDatabase, try_catch, bind, User_countDocuments, call, gets, ret,
    console_error, modify.
  destruct (faults env CallCountDocuments); cbn; [auto 10 |].
  destruct us as [| u us]; [congruence |]. cbn. auto 10.
Qed.

(* ================================================================== *)
(** ** Worked runs *)
(* ================================================================== *)

Example sanak_claims :
  fst (post_api_claim calm (claim_by sanak) seeded_world)
  = Ok (mkResponse 200
          (RClaim "Awarded 6 points to Sanak" 6 (User.mk 3%N "Sanak" 6))).
Proof. vm_compute. reflexivity. Qed.

Example sanak_leads :
  map Entry.name
    (leaderboard_of (users (snd (post_api_claim calm (claim_by sanak) seeded_world))))
  = ["Sanak"; "Rahul"; "Kamal"; "Priya"; "Amit"; "Sunita"; "Vikram"; "Anjali";
     "Deepak"; "Meera"]%string.
Proof. vm_compute. reflexivity. Qed.

(** A numeric name of absolute value [2 ^ 53] or more is outside the
    statements on the text of a stored name; one below it is inside. *)
Example exact_number_bounds :
  exact_number (VNumber (2 ^ 60)) = false
  /\ exact_number (VNumber (2 ^ 53 - 1)) = true
  /\ cast_String (VNumber (2 ^ 53 - 1)) = Some "9007199254740991"%string.
Proof. repeat split; vm_compute; reflexivity. Qed.

(** Past [2 ^ 53] an increment by one is lost to rounding. *)
Example number_add_beyond_exact : number_add (2 ^ 53) 1 = 2 ^ 53.
Proof. vm_compute. reflexivity. Qed.

(* ================================================================== *)
(** ** The specification's claims *)
(* ================================================================== *)

(** C1: a successful POST /api/claim on an existing user awards an integer
    between 1 and 10, stores for that user the points it had plus exactly
    the award, and answers 200 with the award as [pointsAwarded] and the
    updated user; and the claim does succeed when no storage call is
    rejected.  The stored points are taken within the range where Number
    addition is exact. *)
Theorem claim_awards_points
    (env : Env) (req_body : RequestBody) (w : World)
    (i : ObjectId) (before : User.t) :
  cast_ObjectId (field "userId" req_body) = Some i ->
  find (has_id i) (users w) = Some before ->
  is_random_draw (random env) = true ->
  Z.abs (User.totalPoints before) + 10 < MAX_EXACT ->
  let points := random_points (random env) in
  1 <= points <= 10
  /\ (forall (r : Response) (w' : World),
        post_api_claim env req_body w = (Ok r, w') ->
        status r = 200 ->
        exists after : User.t,
          find (has_id i) (users w') = Some after
          /\ User.totalPoints after = User.totalPoints before + points
          /\ User._id after = i
          /\ User.name after = User.name before
          /\ r = mkResponse 200
                   (RClaim (award_message points (User.name before)) points after))
  /\ (faults env CallFindById = None ->
      faults env CallUpdateUser = None ->
      faults env CallInsertClaim = None ->
      faults env CallFindSorted = None ->
      exists (r : Response) (w' : World),
        post_api_claim env req_body w = (Ok r, w') /\ status r = 200).
Proof.
  intros Hcast Hfind Hdraw Hexact points.
  pose proof (random_points_range _ Hdraw) as Hrange. fold points in Hrange.
  assert (Hsum : number_add (User.totalPoints before) points
                 = User.totalPoints before + points).
  { apply number_add_exact. unfold MAX_EXACT in *. lia. }
  destruct (find_has_id _ _ _ Hfind) as [Hid _].
  destruct (set_points_found i (User.totalPoints before + points) _ _ Hfind)
    as (us2 & Hset2 & Hfound & _).
  split; [exact Hrange |]. split.
  - intros r w' Hrun Hstatus.
    destruct (post_api_claim_success _ _ _ _ _ Hrun Hstatus)
      as (i' & loaded & us' & Hcast' & Hfind' & Hset & Hus & _ & _ & Hr).
    rewrite Hcast in Hcast'. injection Hcast' as <-.
    rewrite Hfind in Hfind'. injection Hfind' as <-.
    fold points in Hset, Hr.
    cbn [User.totalPoints] in Hset. rewrite Hsum, Hid, Hset2 in Hset.
    injection Hset as <-.
    exists (User.mk (User._id before) (User.name before)
              (User.totalPoints before + points)).
    rewrite Hus. cbn [User.totalPoints User._id User.name].
    repeat split; try assumption.
    rewrite Hr, Hsum. reflexivity.
  - intros Hf1 Hf2 Hf3 Hf4. eexists _, _. split.
    + apply (post_api_claim_awarded env req_body w i before us2);
        try assumption.
      fold points. cbn [User.totalPoints]. now rewrite Hsum, Hid.
    + reflexivity.
Qed.

Lemma claim_awards_points_witness :
  1 <= random_points (random calm) <= 10
  /\ (exists after : User.t,
        find (has_id 3%N)
          (users (snd (post_api_claim calm (claim_by sanak) seeded_world)))
        = Some after
        /\ User.totalPoints after = 0 + random_points (random calm)
        /\ User._id after = 3%N
        /\ User.name after = "Sanak"%string
        /\ mkResponse 200
             (RClaim "Awarded 6 points to Sanak" 6 (User.mk 3%N "Sanak" 6))
           = mkResponse 200
               (RClaim (award_message (random_points (random calm)) "Sanak")
                       (random_points (random calm)) after))
  /\ (exists (r : Response) (w' : World),
        post_api_claim calm (claim_by sanak) seeded_world = (Ok r, w')
        /\ status r = 200).
Proof.
  assert (H : cast_ObjectId (field "userId" (claim_by sanak)) = Some 3%N
              /\ find (has_id 3%N) (users seeded_world)
                 = Some (User.mk 3%N "Sanak" 0)
              /\ is_random_draw (random calm) = true
              /\ Z.abs (User.totalPoints (User.mk 3%N "Sanak" 0)) + 10 < MAX_EXACT).
  { repeat split; vm_compute; reflexivity. }
  destruct H as (H1 & H2 & H3 & H4).
  destruct (claim_awards_points calm (claim_by sanak) seeded_world 3%N
              (User.mk 3%N "Sanak" 0) H1 H2 H3 H4) as (Hrange & Hsuccess & Hruns).
  split; [exact Hrange |]. split.
  - apply (Hsuccess
             (mkResponse 200
                (RClaim "Awarded 6 points to Sanak" 6 (User.mk 3%N "Sanak" 6)))
             (snd (post_api_claim calm (claim_by sanak) seeded_world))).
    + vm_compute. reflexivity.
    + reflexivity.
  - apply Hruns; reflexivity.
Defined.

(** C2: for every user collection the leaderboard of [getLeaderboard] is
    ordered by [totalPoints] descending and carries the ranks 1, 2, ..., N
    in sequence, N being the number of users, whatever the ties;
    [getLeaderboard] returns it whenever its read is answered; and a
    registration answered 201 or a claim answered 200 has pushed exactly
    that leaderboard of the updated collection to every connected client. *)
Theorem leaderboard_dense_descending :
  (forall us : list User.t,
      StronglySorted Z.ge (map Entry.totalPoints (leaderboard_of us))
      /\ map Entry.rank (leaderboard_of us) = ranks_upto (List.length us)
      /\ List.length (leaderboard_of us) = List.length us
      /\ Permutation (map Entry.totalPoints (leaderboard_of us))
                     (map User.totalPoints us))
  /\ (forall env w,
        faults env CallFindSorted = None ->
        fst (getLeaderboard env w) = Ok (leaderboard_of (users w)))
  /\ (forall env w w' board,
        getLeaderboard env w = (Ok board, w') ->
        board = leaderboard_of (users w))
  /\ (forall env req_body w w' r,
        post_api_users env req_body w = (Ok r, w') ->
        status r = 201 ->
        sockets w'
        = map (deliver (mkEvent LEADERBOARD_UPDATE (leaderboard_of (users w'))))
              (sockets w))
  /\ (forall env req_body w w' r,
        post_api_claim env req_body w = (Ok r, w') ->
        status r = 200 ->
        sockets w'
        = map (deliver (mkEvent LEADERBOARD_UPDATE (leaderboard_of (users w'))))
              (sockets w)).
Proof.
  repeat split.
  - apply leaderboard_descending.
  - apply leaderboard_ranks.
  - apply leaderboard_length.
  - apply leaderboard_scores.
  - intros env w H. now rewrite getLeaderboard_ok.
  - intros env w w' board H. now apply getLeaderboard_result in H.
  - intros env req_body w w' r Hrun Hstatus.
    destruct (post_api_users_created _ _ _ _ _ Hrun Hstatus)
      as (n & _ & _ & _ & _ & _ & Hsock & _).
    exact Hsock.
  - intros env req_body w w' r Hrun Hstatus.
    destruct (post_api_claim_success _ _ _ _ _ Hrun Hstatus)
      as (i & loaded & us' & _ & _ & _ & Hus & _ & Hsock & _).
    now rewrite Hus.
Qed.

Lemma leaderboard_dense_descending_witness :
  map Entry.rank
    (leaderboard_of [User.mk 1%N "Rahul" 4; User.mk 2%N "Kamal" 9;
                     User.mk 3%N "Sanak" 4; User.mk 4%N "Priya" 9])
  = [1; 2; 3; 4]
  /\ sockets (snd (post_api_claim calm (claim_by sanak) seeded_world))
     = map (deliver
              (mkEvent LEADERBOARD_UPDATE
                 (leaderboard_of
                    (users (snd (post_api_claim calm (claim_by sanak) seeded_world))))))
           (sockets seeded_world).
Proof.
  split.
  - exact (proj1 (proj2 (proj1 leaderboard_dense_descending
             [User.mk 1%N "Rahul" 4; User.mk 2%N "Kamal" 9;
              User.mk 3%N "Sanak" 4; User.mk 4%N "Priya" 9]))).
  - apply (proj2 (proj2 (proj2 (proj2 leaderboard_dense_descending)))
             calm (claim_by sanak) seeded_world _
             (mkResponse 200
                (RClaim "Awarded 6 points to Sanak" 6 (User.mk 3%N "Sanak" 6)))).
    + vm_compute. reflexivity.
    + reflexivity.
Defined.

(** C3, as stated, fails: the entry of a one-user leaderboard has no field
    [id]; its fourth key is [_id]. *)
Lemma leaderboard_entry_lacks_id :
  exists e : Entry.t,
    In e (leaderboard_of [User.mk 1%N "Rahul" 0])
    /\ keys (entry_object e) <> ["rank"; "name"; "totalPoints"; "id"]%string
    /\ property "id" (entry_object e) = None.
Proof.
  exists (Entry.mk 1 "Rahul" 0 1%N). repeat split.
  - cbn. auto.
  - cbn. discriminate.
Qed.

(** C3 (amended): every entry of [getLeaderboard]'s result, which is the
    payload of each [leaderboardUpdate], is an object with exactly the
    fields [rank], [name], [totalPoints] and [_id], and [_id], [name] and
    [totalPoints] are those of one stored user. *)
Theorem leaderboard_entry_fields
    (env : Env) (w w' : World) (board : list Entry.t) (e : Entry.t) :
  getLeaderboard env w = (Ok board, w') ->
  In e board ->
  keys (entry_object e) = ["rank"; "name"; "totalPoints"; "_id"]%string
  /\ property "rank" (entry_object e) = Some (JNumber (Entry.rank e))
  /\ exists u : User.t,
       In u (users w)
       /\ property "_id" (entry_object e) = Some (JObjectId (User._id u))
       /\ property "name" (entry_object e) = Some (JString (User.name u))
       /\ property "totalPoints" (entry_object e)
          = Some (JNumber (User.totalPoints u)).
Proof.
  intros Hrun Hin.
  apply getLeaderboard_result in Hrun as [-> _].
  destruct (leaderboard_In _ _ Hin) as (u & Hu & Hname & Hpoints & Hid).
  repeat split. exists u. cbn. rewrite Hname, Hpoints, Hid. auto.
Qed.

Lemma leaderboard_entry_fields_witness :
  keys (entry_object (Entry.mk 1 "Rahul" 0 1%N))
  = ["rank"; "name"; "totalPoints"; "_id"]%string
  /\ property "rank" (entry_object (Entry.mk 1 "Rahul" 0 1%N)) = Some (JNumber 1)
  /\ exists u : User.t,
       In u (users seeded_world)
       /\ property "_id" (entry_object (Entry.mk 1 "Rahul" 0 1%N))
          = Some (JObjectId (User._id u))
       /\ property "name" (entry_object (Entry.mk 1 "Rahul" 0 1%N))
          = Some (JString (User.name u))
       /\ property "totalPoints" (entry_object (Entry.mk 1 "Rahul" 0 1%N))
          = Some (JNumber (User.totalPoints u)).
Proof.
  apply (leaderboard_entry_fields calm seeded_world
           (snd (getLeaderboard calm seeded_world))
           (leaderboard_of (users seeded_world))).
  - vm_compute. reflexivity.
  - vm_compute. auto.
Defined.

Lemma name_taken_app (n : string) (us : list User.t) (u : User.t) :
  User.name u = n -> name_taken n (us ++ [u]) = true.
Proof.
  intros <-. unfold name_taken. rewrite existsb_app. cbn.
  now rewrite String.eqb_refl, orb_true_r.
Qed.

(** C4: for a name that is present, non-empty and held by no user,
    POST /api/users answers 201 with the created user, whose [totalPoints]
    is 0, and the GET /api/users that follows lists that user.  A name
    sent as a number is taken within the exact range, where its text is
    its decimal digits. *)
Theorem registration_creates_user
    (env : Env) (req_body : RequestBody) (w : World) (n : string) :
  falsy (field "name" req_body) = false ->
  exact_number (field "name" req_body) = true ->
  cast_String (field "name" req_body) = Some n ->
  name_taken n (users w) = false ->
  faults env CallInsertUser = None ->
  faults env CallFindSorted = None ->
  faults env CallFind = None ->
  exists (created : User.t) (w' w'' : World) (listed : list User.t),
    post_api_users env req_body w = (Ok (mkResponse 201 (RUser created)), w')
    /\ User.name created = n
    /\ User.totalPoints created = 0
    /\ get_api_users env w' = (Ok (mkResponse 200 (RUsers listed)), w'')
    /\ In created listed.
Proof.
  intros Hfalsy Hexact Hcast Hfree Hins Hsort Hfind.
  eexists _, _, _, _. split.
  { apply (post_api_users_free_name env req_body w n); assumption. }
  split; [reflexivity |]. split; [reflexivity |]. split.
  { apply get_api_users_ok. exact Hfind. }
  cbn [users]. apply in_or_app. right. cbn. auto.
Qed.

Lemma registration_creates_user_witness :
  exists (created : User.t) (w' w'' : World) (listed : list User.t),
    post_api_users calm (signup "Zoya") seeded_world
    = (Ok (mkResponse 201 (RUser created)), w')
    /\ User.name created = "Zoya"%string
    /\ User.totalPoints created = 0
    /\ get_api_users calm w' = (Ok (mkResponse 200 (RUsers listed)), w'')
    /\ In created listed.
Proof.
  apply (registration_creates_user calm (signup "Zoya") seeded_world "Zoya");
    vm_compute; reflexivity.
Defined.

(** C5: POST /api/users with a name some user holds answers 409 with a
    message and stores nothing; the only storage call the handler issued is
    the insert itself, and a 409 always comes from an error of code 11000
    thrown in the [try] block; posting a free name twice answers 201, then
    409.  A name sent as a number is taken within the exact range, where
    its text is its decimal digits. *)
Theorem duplicate_name_conflict :
  (forall env req_body w n,
      falsy (field "name" req_body) = false ->
      exact_number (field "name" req_body) = true ->
      cast_String (field "name" req_body) = Some n ->
      name_taken n (users w) = true ->
      faults env CallInsertUser = None ->
      exists w',
        post_api_users env req_body w
        = (Ok (mkResponse 409 (RMessage "Error: This user name already exists.")), w')
        /\ post_api_users_try env req_body w
           = (Throw (MongoServerError DUPLICATE_KEY), w')
        /\ users w' = users w
        /\ sockets w' = sockets w
        /\ issued w' = issued w ++ [CallInsertUser])
  /\ (forall env req_body w n,
        falsy (field "name" req_body) = false ->
        exact_number (field "name" req_body) = true ->
        cast_String (field "name" req_body) = Some n ->
        name_taken n (users w) = false ->
        faults env CallInsertUser = None ->
        faults env CallFindSorted = None ->
        exists created w1 w2,
          post_api_users env req_body w = (Ok (mkResponse 201 (RUser created)), w1)
          /\ post_api_users env req_body w1
             = (Ok (mkResponse 409
                      (RMessage "Error: This user name already exists.")), w2))
  /\ (forall env req_body w w' r,
        post_api_users env req_body w = (Ok r, w') ->
        status r = 409 ->
        exists error,
          post_api_users_try env req_body w = (Throw error, w')
          /\ error_code error = Some DUPLICATE_KEY).
Proof.
  assert (Hheld : forall env req_body w n,
      falsy (field "name" req_body) = false ->
      exact_number (field "name" req_body) = true ->
      cast_String (field "name" req_body) = Some n ->
      name_taken n (users w) = true ->
      faults env CallInsertUser = None ->
      exists w',
        post_api_users env req_body w
        = (Ok (mkResponse 409 (RMessage "Error: This user name already exists.")), w')
        /\ post_api_users_try env req_body w
           = (Throw (MongoServerError DUPLICATE_KEY), w')
        /\ users w' = users w
        /\ sockets w' = sockets w
        /\ issued w' = issued w ++ [CallInsertUser]).
  { intros env req_body w n Hfalsy Hexact Hcast Htaken Hins.
    pose proof (post_api_users_held_name env req_body w n Hfalsy Hcast Htaken Hins)
      as Htry.
    eexists. split; [| split; [exact Htry | cbn; auto]].
    unfold post_api_users, try_catch. rewrite Htry. reflexivity. }
  split; [exact Hheld |]. split.
  - intros env req_body w n Hfalsy Hexact Hcast Hfree Hins Hsort.
    pose proof (post_api_users_free_name env req_body w n
                  Hfalsy Hcast Hfree Hins Hsort) as Hfirst.
    cbv zeta in Hfirst.
    match type of Hfirst with _ = (_, ?w1) =>
      destruct (Hheld env req_body w1 n Hfalsy Hexact Hcast) as (w2 & Hsecond & _);
        [cbn [users]; now apply name_taken_app | exact Hins |]
    end.
    eexists _, _, w2. split; [exact Hfirst | exact Hsecond].
  - apply post_api_users_conflict_origin.
Qed.

Lemma duplicate_name_conflict_witness :
  (exists w',
      post_api_users calm (signup "Priya") seeded_world
      = (Ok (mkResponse 409 (RMessage "Error: This user name already exists.")), w')
      /\ post_api_users_try calm (signup "Priya") seeded_world
         = (Throw (MongoServerError DUPLICATE_KEY), w')
      /\ users w' = users seeded_world
      /\ sockets w' = sockets seeded_world
      /\ issued w' = issued seeded_world ++ [CallInsertUser])
  /\ (exists created w1 w2,
        post_api_users calm (signup "Zoya") seeded_world
        = (Ok (mkResponse 201 (RUser created)), w1)
        /\ post_api_users calm (signup "Zoya") w1
           = (Ok (mkResponse 409
                    (RMessage "Error: This user name already exists.")), w2)).
Proof.
  split.
  - apply (proj1 duplicate_name_conflict calm (signup "Priya") seeded_world "Priya"%string);
      vm_compute; reflexivity.
  - apply (proj1 (proj2 duplicate_name_conflict)
             calm (signup "Zoya") seeded_world "Zoya"%string);
      vm_compute; reflexivity.
Defined.

(** C6: POST /api/claim with a well-formed [userId] that identifies no
    user answers 404 and updates no points, inserts no history entry and
    broadcasts nothing (the lookup is the only storage call); with [userId]
    missing it answers 400. *)
Theorem claim_unknown_or_missing_user :
  (forall env req_body w i,
      cast_ObjectId (field "userId" req_body) = Some i ->
      find (has_id i) (users w) = None ->
      faults env CallFindById = None ->
      exists w',
        post_api_claim env req_body w
        = (Ok (mkResponse 404 (RMessage "User not found")), w')
        /\ users w' = users w
        /\ claims w' = claims w
        /\ sockets w' = sockets w
        /\ issued w' = issued w ++ [CallFindById])
  /\ (forall env req_body w,
        field "userId" req_body = VUndefined ->
        post_api_claim env req_body w
        = (Ok (mkResponse 400 (RMessage "User ID is required")), w)).
Proof.
  split.
  - intros env req_body w i Hcast Hfind Hfault.
    eexists. split; [now apply (post_api_claim_not_found env req_body w i) |].
    cbn. auto.
  - intros env req_body w Hmissing.
    apply post_api_claim_missing_id. now rewrite Hmissing.
Qed.

Lemma claim_unknown_or_missing_user_witness :
  (exists w',
      post_api_claim calm (claim_by nobody) seeded_world
      = (Ok (mkResponse 404 (RMessage "User not found")), w')
      /\ users w' = users seeded_world
      /\ claims w' = claims seeded_world
      /\ sockets w' = sockets seeded_world
      /\ issued w' = issued seeded_world ++ [CallFindById])
  /\ post_api_claim calm [] seeded_world
     = (Ok (mkResponse 400 (RMessage "User ID is required")), seeded_world).
Proof.
  split.
  - apply (proj1 claim_unknown_or_missing_user calm (claim_by nobody) seeded_world
             255%N); vm_compute; reflexivity.
  - apply (proj2 claim_unknown_or_missing_user calm [] seeded_world). reflexivity.
Defined.

(** C7: started on an empty user collection, seeding inserts in one batch
    exactly the ten users Rahul, Kamal, Sanak, Priya, Amit, Sunita, Vikram,
    Anjali, Deepak, Meera, each with [totalPoints] 0; started on a
    collection that holds a user, it changes nothing. *)
Theorem seeding_only_when_empty :
  (forall env w,
      users w = [] ->
      faults env CallCountDocuments = None ->
      faults env (CallInsertMany 10) = None ->
      let w' := snd (seedDatabase env w) in
      map User.name (users w')
      = ["Rahul"; "Kamal"; "Sanak"; "Priya"; "Amit"; "Sunita"; "Vikram";
         "Anjali"; "Deepak"; "Meera"]%string
      /\ Forall (fun u => User.totalPoints u = 0) (users w')
      /\ List.length (users w') = 10%nat
      /\ issued w' = issued w ++ [CallCountDocuments; CallInsertMany 10])
  /\ (forall env w,
        users w <> [] ->
        let w' := snd (seedDatabase env w) in
        users w' = users w /\ claims w' = claims w /\ sockets w' = sockets w).
Proof.
  split.
  - intros env w Hempty Hcount Hmany w'. subst w'.
    rewrite (seedDatabase_empty env w Hempty Hcount Hmany).
    cbn [snd users issued].
    rewrite seeded_names, seeded_length, <- app_assoc.
    repeat split. apply seeded_points.
  - intros env w Hne w'.
    destruct (seedDatabase_nonempty env w Hne) as (Hu & Hc & _ & Hs & _).
    auto.
Qed.

Lemma seeding_only_when_empty_witness :
  (map User.name (users (snd (seedDatabase calm fresh_database)))
   = ["Rahul"; "Kamal"; "Sanak"; "Priya"; "Amit"; "Sunita"; "Vikram";
      "Anjali"; "Deepak"; "Meera"]%string
   /\ Forall (fun u => User.totalPoints u = 0)
             (users (snd (seedDatabase calm fresh_database)))
   /\ List.length (users (snd (seedDatabase calm fresh_database))) = 10%nat
   /\ issued (snd (seedDatabase calm fresh_database))
      = issued fresh_database ++ [CallCountDocuments; CallInsertMany 10])
  /\ (users (snd (seedDatabase calm seeded_world)) = users seeded_world
      /\ claims (snd (seedDatabase calm seeded_world)) = claims seeded_world
      /\ sockets (snd (seedDatabase calm seeded_world)) = sockets seeded_world).
Proof.
  split.
  - apply (proj1 seeding_only_when_empty calm fresh_database); reflexivity.
  - apply (proj2 seeding_only_when_empty calm seeded_world). discriminate.
Defined.

(** C8: when the points update of a claim is stored and the history insert
    that follows is rejected, the handler answers the generic 500 and rolls
    nothing back: the user keeps the incremented [totalPoints], no history
    entry of the claim exists, and nothing is broadcast. *)
Theorem claim_without_history_keeps_points
    (env : Env) (req_body : RequestBody) (w : World)
    (i : ObjectId) (before : User.t) (e : Error) :
  cast_ObjectId (field "userId" req_body) = Some i ->
  find (has_id i) (users w) = Some before ->
  is_random_draw (random env) = true ->
  Z.abs (User.totalPoints before) + 10 < MAX_EXACT ->
  faults env CallFindById = None ->
  faults env CallUpdateUser = None ->
  faults env CallInsertClaim = Some e ->
  exists (w' : World) (after : User.t),
    post_api_claim env req_body w
    = (Ok (mkResponse 500 (RMessage "Error claiming points")), w')
    /\ find (has_id i) (users w') = Some after
    /\ User.totalPoints after
       = User.totalPoints before + random_points (random env)
    /\ User.totalPoints before < User.totalPoints after
    /\ claims w' = claims w
    /\ sockets w' = sockets w.
Proof.
  intros Hcast Hfind Hdraw Hexact Hf1 Hf2 Hf3.
  pose proof (random_points_range _ Hdraw) as Hrange.
  set (points := random_points (random env)) in *.
  assert (Hsum : number_add (User.totalPoints before) points
                 = User.totalPoints before + points).
  { apply number_add_exact. unfold MAX_EXACT in *. lia. }
  destruct (find_has_id _ _ _ Hfind) as [Hid _].
  destruct (set_points_found i (User.totalPoints before + points) _ _ Hfind)
    as (us' & Hset & Hfound & _).
  exists (mkWorld us' (claims w) (next_id w + 1)%N (sockets w)
            (console w ++ [LogError "Claim error:" e])
            (((issued w ++ [CallFindById]) ++ [CallUpdateUser])
               ++ [CallInsertClaim])).
  exists (User.mk (User._id before) (User.name before)
            (User.totalPoints before + points)).
  split.
  { apply (post_api_claim_history_rejected env req_body w i before us' e);
      try assumption.
    fold points. now rewrite Hsum, Hid. }
  cbn [users claims sockets User.totalPoints].
  repeat split; try assumption; lia.
Qed.

Lemma claim_without_history_keeps_points_witness :
  exists (w' : World) (after : User.t),
    post_api_claim history_down (claim_by sanak) seeded_world
    = (Ok (mkResponse 500 (RMessage "Error claiming points")), w')
    /\ find (has_id 3%N) (users w') = Some after
    /\ User.totalPoints after = 0 + random_points (random history_down)
    /\ 0 < User.totalPoints after
    /\ claims w' = claims seeded_world
    /\ sockets w' = sockets seeded_world.
Proof.
  apply (claim_without_history_keeps_points history_down (claim_by sanak)
           seeded_world 3%N (User.mk 3%N "Sanak" 0) MongoNetworkError);
    vm_compute; reflexivity.
Defined.

(** C9: a client that connects receives at once exactly one
    [leaderboardUpdate] carrying the current leaderboard, by the connection
    handler alone, and the clients already connected receive nothing. *)
Theorem connection_sends_leaderboard
    (env : Env) (sid : string) (w : World) :
  faults env CallFindSorted = None ->
  existsb (fun s => String.eqb (socket_id s) sid) (sockets w) = false ->
  exists w' : World,
    on_connection env sid w = (Ok tt, w')
    /\ sockets w'
       = sockets w
         ++ [mkSocket sid [mkEvent LEADERBOARD_UPDATE (leaderboard_of (users w))]]
    /\ users w' = users w
    /\ claims w' = claims w.
Proof.
  intros Hfault Hnew. eexists. split.
  - now apply on_connection_ok.
  - cbn. auto.
Qed.

Lemma connection_sends_leaderboard_witness :
  exists w' : World,
    on_connection calm "phone" seeded_world = (Ok tt, w')
    /\ sockets w'
       = sockets seeded_world
         ++ [mkSocket "phone"
               [mkEvent LEADERBOARD_UPDATE (leaderboard_of (users seeded_world))]]
    /\ users w' = users seeded_world
    /\ claims w' = claims seeded_world.
Proof.
  apply (connection_sends_leaderboard calm "phone" seeded_world);
    vm_compute; reflexivity.
Defined.

(** C10: POST /api/claim with a [userId] that is present but is not a
    valid identifier answers 500 with the fixed message, not 404: the cast
    of the lookup throws into the generic [catch]; no storage call is
    issued, nothing is stored and nothing is broadcast. *)
Theorem claim_malformed_user_id
    (env : Env) (req_body : RequestBody) (w : World) :
  falsy (field "userId" req_body) = false ->
  cast_ObjectId (field "userId" req_body) = None ->
  exists w' : World,
    post_api_claim env req_body w
    = (Ok (mkResponse 500 (RMessage "Error claiming points")), w')
    /\ post_api_claim_try env req_body w = (Throw CastError, w)
    /\ users w' = users w
    /\ claims w' = claims w
    /\ sockets w' = sockets w
    /\ issued w' = issued w
    /\ console w' = console w ++ [LogError "Claim error:" CastError].
Proof.
  intros Htruthy Hcast. eexists. split.
  - now apply post_api_claim_cast_error.
  - split; [| cbn; auto 10].
    unfold post_api_claim_try, User_findById, bind, throw.
    now rewrite Htruthy, Hcast.
Qed.

Lemma claim_malformed_user_id_witness :
  exists w' : World,
    post_api_claim calm (claim_by "not-an-id") seeded_world
    = (Ok (mkResponse 500 (RMessage "Error claiming points")), w')
    /\ post_api_claim_try calm (claim_by "not-an-id") seeded_world
       = (Throw CastError, seeded_world)
    /\ users w' = users seeded_world
    /\ claims w' = claims seeded_world
    /\ sockets w' = sockets seeded_world
    /\ issued w' = issued seeded_world
    /\ console w' = console seeded_world ++ [LogError "Claim error:" CastError].
Proof.
  apply (claim_malformed_user_id calm (claim_by "not-an-id") seeded_world);
    vm_compute; reflexivity.
Defined.

(* ================================================================== *)
(** ** Further properties of server.js *)
(* ================================================================== *)

(** Case analysis on every test a handler run is stuck on. *)
Ltac split_tests :=
  repeat (cbv beta iota;
          match goal with
          | |- context [falsy ?v] => destruct (falsy v) eqn:?
          | |- context [cast_String ?v] => destruct (cast_String v) eqn:?
          | |- context [cast_ObjectId ?v] => destruct (cast_ObjectId v) eqn:?
          | |- context [faults ?e ?c] => destruct (faults e c) eqn:?
          | |- context [name_taken ?n ?l] => destruct (name_taken n l) eqn:?
          | |- context [find ?f ?l] => destruct (find f l) eqn:?
          | |- context [set_points ?i ?p ?l] => destruct (set_points i p l) eqn:?
          | |- context [is_duplicate_key ?e] => destruct (is_duplicate_key e) eqn:?
          end).

Ltac finish_run :=
  repeat split; intros; subst; cbn in *;
  try discriminate; try congruence; try lia; eauto.

(** X1: the origin function lets a request through exactly when it carries
    no [Origin] header or an empty one, or when its origin is the local
    development origin or the configured front-end origin; every other
    origin is refused with the error "Not allowed by CORS". *)
Theorem cors_origin_allows (frontend_url origin : option string) :
  (cors_origin frontend_url origin = Allowed
   <-> origin = None \/ origin = Some ""%string
       \/ origin = Some LOCAL_ORIGIN \/ origin = frontend_url)
  /\ (cors_origin frontend_url origin <> Allowed ->
      cors_origin frontend_url origin = Refused "Not allowed by CORS").
Proof.
  unfold cors_origin, includes, allowedOrigins. cbn [existsb].
  split.
  - destruct origin as [o |]; cbn [no_origin same_value orb].
    2: { split; auto. }
    destruct (String.eqb_spec o "") as [-> | Hne]; cbn [orb].
    { split; auto. }
    destruct (String.eqb_spec o LOCAL_ORIGIN) as [-> | Hlocal]; cbn [orb].
    { split; auto. }
    destruct frontend_url as [f |].
    + destruct (String.eqb_spec o f) as [-> | Hf]; cbn [orb].
      * split; auto.
      * split; [discriminate |].
        intros [H | [H | [H | H]]]; congruence.
    + cbn [orb]. split; [discriminate |].
      intros [H | [H | [H | H]]]; congruence.
  - destruct (no_origin origin || _); [congruence | reflexivity].
Qed.

(** X2: GET /api/users answers 200 with the stored users in their stored
    order when the read is answered, and 500 with "Error fetching users"
    when it is rejected; in both cases it changes neither collection and
    sends nothing to any socket. *)
Theorem get_api_users_reads_only (env : Env) (w : World) :
  exists (r : Response) (w' : World),
    get_api_users env w = (Ok r, w')
    /\ (faults env CallFind = None -> r = mkResponse 200 (RUsers (users w)))
    /\ (forall e, faults env CallFind = Some e ->
                  r = mkResponse 500 (RMessage "Error fetching users"))
    /\ users w' = users w /\ claims w' = claims w /\ sockets w' = sockets w.
Proof.
  destruct w as [us cs nid ss con iss]. unfold_handler.
  destruct (faults env CallFind) as [e |]; eexists _, _;
    (split; [reflexivity | finish_run]).
Qed.

Lemma get_api_users_reads_only_witness :
  exists (r : Response) (w' : World),
    get_api_users database_down seeded_world = (Ok r, w')
    /\ (faults database_down CallFind = None ->
        r = mkResponse 200 (RUsers (users seeded_world)))
    /\ (forall e, faults database_down CallFind = Some e ->
                  r = mkResponse 500 (RMessage "Error fetching users"))
    /\ users w' = users seeded_world /\ claims w' = claims seeded_world
    /\ sockets w' = sockets seeded_world.
Proof. exact (get_api_users_reads_only database_down seeded_world). Defined.

(** X3: POST /api/users always answers, with 201, 400, 409 or 500; it
    answers 400 exactly when [name] is missing or falsy, and then leaves
    the whole state as it was; every answer other than 201 carries a
    message and no socket has received anything. *)
Theorem post_api_users_outcome (env : Env) (req_body : RequestBody) (w : World) :
  exists (r : Response) (w' : World),
    post_api_users env req_body w = (Ok r, w')
    /\ (status r = 201 \/ status r = 400 \/ status r = 409 \/ status r = 500)
    /\ (status r = 400 <-> falsy (field "name" req_body) = true)
    /\ (status r = 400 -> w' = w)
    /\ (status r <> 201 ->
        sockets w' = sockets w /\ exists m, body r = RMessage m).
Proof.
  destruct w as [us cs nid ss con iss]. unfold_handler.
  split_tests; eexists _, _; (split; [reflexivity | finish_run]).
Qed.

Lemma post_api_users_outcome_witness :
  exists (r : Response) (w' : World),
    post_api_users calm [] seeded_world = (Ok r, w')
    /\ (status r = 201 \/ status r = 400 \/ status r = 409 \/ status r = 500)
    /\ (status r = 400 <-> falsy (field "name" []) = true)
    /\ (status r = 400 -> w' = seeded_world)
    /\ (status r <> 201 ->
        sockets w' = sockets seeded_world /\ exists m, body r = RMessage m).
Proof. exact (post_api_users_outcome calm [] seeded_world). Defined.

(** X4: POST /api/claim always answers, with 200, 400, 404 or 500; it
    answers 400 exactly when [userId] is missing or falsy; a 400 or a 404
    leaves users, history and sockets as they were; every answer other than
    200 carries a message and no socket has received anything. *)
Theorem post_api_claim_outcome (env : Env) (req_body : RequestBody) (w : World) :
  exists (r : Response) (w' : World),
    post_api_claim env req_body w = (Ok r, w')
    /\ (status r = 200 \/ status r = 400 \/ status r = 404 \/ status r = 500)
    /\ (status r = 400 <-> falsy (field "userId" req_body) = true)
    /\ (status r = 400 \/ status r = 404 ->
        users w' = users w /\ claims w' = claims w)
    /\ (status r <> 200 ->
        sockets w' = sockets w /\ exists m, body r = RMessage m).
Proof.
  destruct w as [us cs nid ss con iss]. unfold_handler.
  split_tests; eexists _, _; (split; [reflexivity | finish_run]);
    try (destruct H; discriminate).
Qed.

Lemma post_api_claim_outcome_witness :
  exists (r : Response) (w' : World),
    post_api_claim database_down (claim_by sanak) seeded_world = (Ok r, w')
    /\ (status r = 200 \/ status r = 400 \/ status r = 404 \/ status r = 500)
    /\ (status r = 400 <-> falsy (field "userId" (claim_by sanak)) = true)
    /\ (status r = 400 \/ status r = 404 ->
        users w' = users seeded_world /\ claims w' = claims seeded_world)
    /\ (status r <> 200 ->
        sockets w' = sockets seeded_world /\ exists m, body r = RMessage m).
Proof. exact (post_api_claim_outcome database_down (claim_by sanak) seeded_world). Defined.

(* ------------------------------------------------------------------ *)
(** *** What a run does to the user collection *)

Lemma set_points_shape (i : ObjectId) (p : Z) (us us' : list User.t) :
  set_points i p us = Some us' ->
  map User._id us' = map User._id us /\ map User.name us' = map User.name us.
Proof.
  revert us'. induction us as [| v us IH]; intros us'; cbn; [discriminate |].
  destruct (has_id i v).
  - intros [= <-]. cbn. auto.
  - destruct (set_points i p us) as [rest |]; cbn; [| discriminate].
    intros [= <-]. destruct (IH rest eq_refl) as [Hids Hnames].
    cbn. now rewrite Hids, Hnames.
Qed.

(** With distinct identifiers, the write touches one document only. *)
Lemma set_points_In (i : ObjectId) (p : Z) (us us' : list User.t) :
  set_points i p us = Some us' ->
  NoDup (map User._id us) ->
  forall u', In u' us' ->
             (In u' us /\ User._id u' <> i)
             \/ (User._id u' = i /\ User.totalPoints u' = p).
Proof.
  revert us'. induction us as [| v us IH]; intros us'; cbn; [discriminate |].
  intros Hset Hnodup. inversion Hnodup as [| ? ? Hnotin Hrest]; subst.
  destruct (has_id i v) eqn:Hv.
  - injection Hset as <-. pose proof (has_id_eq _ _ Hv) as Hid.
    intros u' [<- | Hin].
    + right. cbn. auto.
    + left. split; [now right |].
      intros Heq. apply Hnotin. rewrite Hid, <- Heq. now apply in_map.
  - destruct (set_points i p us) as [rest |] eqn:Hrec; cbn in Hset; [| discriminate].
    injection Hset as <-.
    intros u' [<- | Hin].
    + left. split; [now left |].
      intros Heq. unfold has_id in Hv. rewrite Heq, N.eqb_refl in Hv. discriminate.
    + destruct (IH rest eq_refl Hrest u' Hin) as [[Hold Hne] | Hnew]; auto.
Qed.

(** The user collection after any run of the claim handler. *)
Lemma post_api_claim_users (env : Env) (req_body : RequestBody)
      (w w' : World) (o : Outcome Response) :
  post_api_claim env req_body w = (o, w') ->
  users w' = users w
  \/ exists i loaded,
       cast_ObjectId (field "userId" req_body) = Some i
       /\ find (has_id i) (users w) = Some loaded
       /\ set_points (User._id loaded)
            (number_add (User.totalPoints loaded) (random_points (random env)))
            (users w) = Some (users w').
Proof.
  destruct w as [us cs nid ss con iss]. unfold_handler.
  split_tests; intros [= <- <-]; cbn; auto;
    right; eexists _, _; (split; [reflexivity | split; [eassumption | assumption]]).
Qed.

(** The user collection after any run of the registration handler. *)
Lemma post_api_users_users (env : Env) (req_body : RequestBody)
      (w w' : World) (o : Outcome Response) :
  post_api_users env req_body w = (o, w') ->
  users w' = users w
  \/ exists u,
       users w' = users w ++ [u]
       /\ name_taken (User.name u) (users w) = false.
Proof.
  destruct w as [us cs nid ss con iss]. unfold_handler.
  split_tests; intros [= <- <-]; cbn; auto;
    right; eexists; (split; [reflexivity | assumption]).
Qed.

Lemma new_Users_frame (docs : list RequestBody) (w w' : World)
      (o : Outcome (list NewUser)) :
  new_Users docs w = (o, w') ->
  users w' = users w /\ claims w' = claims w /\ sockets w' = sockets w.
Proof.
  revert w w' o. induction docs as [| doc docs IH]; intros w w' o; cbn.
  - unfold ret. intros [= <- <-]. auto.
  - unfold bind at 1. unfold new_User, bind, fresh_id, ret.
    destruct (new_Users docs _) as [[ds | e] w1] eqn:Hrec;
      intros [= <- <-]; apply IH in Hrec; destruct w; cbn in *; exact Hrec.
Qed.

Lemma NoDup_snoc {A : Type} (l : list A) (x : A) :
  NoDup l -> ~ In x l -> NoDup (l ++ [x]).
Proof.
  induction 1 as [| y l Hy Hl IH]; cbn; intros Hx.
  - repeat constructor. auto.
  - constructor.
    + rewrite in_app_iff. cbn. intros [H | [H | []]]; [auto | subst; auto].
    + apply IH. auto.
Qed.

(** An ordered batch only appends, and keeps the names distinct. *)
Lemma insert_ordered_users (batch : list User.t) (w w' : World)
      (o : Outcome unit) :
  insert_ordered batch w = (o, w') ->
  (exists added, users w' = users w ++ added)
  /\ (NoDup (map User.name (users w)) -> NoDup (map User.name (users w')))
  /\ claims w' = claims w /\ sockets w' = sockets w.
Proof.
  revert w w' o. induction batch as [| u batch IH]; intros w w' o; cbn.
  - unfold ret. intros [= <- <-]. repeat split; auto. exists []. now rewrite app_nil_r.
  - unfold bind at 1. unfold insert_user, bind, gets, modify, throw.
    destruct (name_taken (User.name u) (users w)) eqn:Htaken.
    + intros [= <- <-]. repeat split; auto. exists []. now rewrite app_nil_r.
    + intros Hrec. apply IH in Hrec.
      destruct w as [us cs nid ss con iss]. cbn in *.
      destruct Hrec as ((added & Hadd) & Hnodup & Hc & Hs).
      repeat split; auto.
      * exists (u :: added). rewrite Hadd, <- app_assoc. reflexivity.
      * intros Hus. apply Hnodup. rewrite map_app. cbn.
        apply NoDup_snoc; [exact Hus |].
        intros Hin. apply (proj2 (name_taken_In _ _)) in Hin.
        unfold name_taken in Hin. congruence.
Qed.

Lemma only_appends_same (w w' : World) :
  users w' = users w -> claims w' = claims w -> sockets w' = sockets w ->
  only_appends w w'.
Proof.
  intros Hu Hc Hs. unfold only_appends. rewrite Hu. repeat split; auto.
  exists []. now rewrite app_nil_r.
Qed.

Lemma User_insertMany_users (env : Env) (docs : list RequestBody)
      (w w' : World) (o : Outcome unit) :
  User_insertMany env docs w = (o, w') -> only_appends w w'.
Proof.
  unfold User_insertMany, bind.
  destruct (new_Users docs w) as [[ds | e] w1] eqn:Hnew;
    apply new_Users_frame in Hnew as (Hu & Hc & Hs).
  - destruct (validated ds) as [batch |].
    + unfold call. destruct (faults env (CallInsertMany (List.length batch))).
      * intros [= <- <-]. apply only_appends_same; destruct w1; cbn in *; auto.
      * intros Hins. apply insert_ordered_users in Hins.
        destruct w1 as [us1 cs1 nid1 ss1 con1 iss1]. cbn in *. subst.
        exact Hins.
    + unfold throw. intros [= <- <-]. now apply only_appends_same.
  - intros [= <- <-]. now apply only_appends_same.
Qed.

(** The user collection after any run of the seeding. *)
Lemma seedDatabase_users (env : Env) (w w' : World) (o : Outcome unit) :
  seedDatabase env w = (o, w') -> only_appends w w'.
Proof.
  destruct w as [us cs nid ss con iss].
  cbv beta iota zeta delta
    [seedDatabase try_catch bind User_countDocuments call gets ret
     console_log console_error modify set_issued set_console
     users claims next_id sockets console issued].
  destruct (faults env CallCountDocuments).
  { intros [= <- <-]. now apply only_appends_same. }
  destruct (Z.of_nat (List.length us) =? 0).
  2: { intros [= <- <-]. now apply only_appends_same. }
  destruct (User_insertMany env _ _) as [[done | e] w1] eqn:Hmany;
    apply User_insertMany_users in Hmany;
    intros [= <- <-]; destruct w1; exact Hmany.
Qed.

(** X5: when POST /api/users has stored the new user and the leaderboard
    read that follows is rejected, the handler answers 500 "Error adding
    user" (the error not bearing the duplicate-key code) although the user
    stays stored, and no socket is told.  A name sent as a number is taken
    within the exact range, where its text is its decimal digits. *)
Theorem registration_without_broadcast
    (env : Env) (req_body : RequestBody) (w : World) (n : string) (e : Error) :
  falsy (field "name" req_body) = false ->
  exact_number (field "name" req_body) = true ->
  cast_String (field "name" req_body) = Some n ->
  name_taken n (users w) = false ->
  faults env CallInsertUser = None ->
  faults env CallFindSorted = Some e ->
  is_duplicate_key e = false ->
  exists w' : World,
    post_api_users env req_body w
    = (Ok (mkResponse 500 (RMessage "Error adding user")), w')
    /\ users w' = users w ++ [User.mk (next_id w) n 0]
    /\ sockets w' = sockets w.
Proof.
  intros Hfalsy Hexact Hcast Hfree Hins Hsort Hdup.
  destruct w as [us cs nid ss con iss]. cbn [users] in Hfree.
  unfold_handler. rewrite Hfalsy, Hcast, Hins. cbv beta iota.
  rewrite Hfree, Hsort. cbv beta iota. rewrite Hdup.
  eexists. split; [reflexivity |]. cbn. auto.
Qed.

Lemma registration_without_broadcast_witness :
  exists w' : World,
    post_api_users board_down (signup "Zoya") seeded_world
    = (Ok (mkResponse 500 (RMessage "Error adding user")), w')
    /\ users w' = users seeded_world ++ [User.mk (next_id seeded_world) "Zoya" 0]
    /\ sockets w' = sockets seeded_world.
Proof.
  apply (registration_without_broadcast board_down (signup "Zoya") seeded_world
           "Zoya"%string MongoNetworkError); vm_compute; reflexivity.
Defined.

(** X6: user names stay pairwise distinct: whatever the request, the
    environment and the outcome, a run of the registration handler, of the
    claim handler or of the seeding leaves a collection of distinct names
    with distinct names. *)
Theorem names_stay_distinct (env : Env) (req_body : RequestBody) (w : World) :
  NoDup (map User.name (users w)) ->
  NoDup (map User.name (users (snd (post_api_users env req_body w))))
  /\ NoDup (map User.name (users (snd (post_api_claim env req_body w))))
  /\ NoDup (map User.name (users (snd (seedDatabase env w)))).
Proof.
  intros Hnodup. repeat split.
  - destruct (post_api_users env req_body w) as [o w'] eqn:Hrun. cbn [snd].
    apply post_api_users_users in Hrun as [-> | (u & -> & Hfree)]; [exact Hnodup |].
    rewrite map_app. cbn. apply NoDup_snoc; [exact Hnodup |].
    intros Hin. apply (proj2 (name_taken_In _ _)) in Hin. congruence.
  - destruct (post_api_claim env req_body w) as [o w'] eqn:Hrun. cbn [snd].
    apply post_api_claim_users in Hrun as [-> | (i & loaded & _ & _ & Hset)];
      [exact Hnodup |].
    apply set_points_shape in Hset as [_ ->]. exact Hnodup.
  - destruct (seedDatabase env w) as [o w'] eqn:Hrun. cbn [snd].
    apply seedDatabase_users in Hrun as (_ & Hkeep & _). now apply Hkeep.
Qed.

Lemma names_stay_distinct_witness :
  NoDup (map User.name (users (snd (post_api_users calm (signup "Priya") seeded_world))))
  /\ NoDup (map User.name (users (snd (post_api_claim calm (signup "Priya") seeded_world))))
  /\ NoDup (map User.name (users (snd (seedDatabase calm seeded_world)))).
Proof.
  apply (names_stay_distinct calm (signup "Priya") seeded_world).
  change (users seeded_world) with (seeded 1%N initialUsers).
  rewrite seeded_names. exact initialUsers_distinct.
Defined.

Lemma find_app_found {A : Type} (f : A -> bool) (l added : list A) (x : A) :
  find f l = Some x -> find f (l ++ added) = Some x.
Proof.
  induction l as [| y l IH]; cbn; [discriminate |].
  destruct (f y); [auto | exact IH].
Qed.

Lemma keeps_users_same (us : list User.t) : keeps_users us us.
Proof. intros i u Hfind. exists u. repeat split; [exact Hfind | lia]. Qed.

Lemma keeps_users_app (us added : list User.t) : keeps_users us (us ++ added).
Proof.
  intros i u Hfind. exists u. repeat split; [| lia]. now apply find_app_found.
Qed.

(** X7: no run of the registration handler, of the claim handler or of the
    seeding loses, renames or lowers a user: whoever is found by identifier
    before the run is found after it, under the same name and with at
    least the same points (the draw being one [Math.random] can return and
    the stored points within the exact range). *)
Theorem users_are_kept (env : Env) (req_body : RequestBody) (w : World) :
  is_random_draw (random env) = true ->
  within_exact_range (users w) ->
  keeps_users (users w) (users (snd (post_api_users env req_body w)))
  /\ keeps_users (users w) (users (snd (post_api_claim env req_body w)))
  /\ keeps_users (users w) (users (snd (seedDatabase env w))).
Proof.
  intros Hdraw Hrange. repeat split.
  - destruct (post_api_users env req_body w) as [o w'] eqn:Hrun. cbn [snd].
    apply post_api_users_users in Hrun as [-> | (u & -> & _)].
    + apply keeps_users_same.
    + apply keeps_users_app.
  - destruct (post_api_claim env req_body w) as [o w'] eqn:Hrun. cbn [snd].
    apply post_api_claim_users in Hrun as [-> | (i & loaded & _ & Hfind & Hset)].
    { apply keeps_users_same. }
    destruct (find_has_id _ _ _ Hfind) as [Hid Hin].
    pose proof (random_points_range _ Hdraw) as Hpoints.
    set (points := random_points (random env)) in *.
    assert (Hsum : number_add (User.totalPoints loaded) points
                   = User.totalPoints loaded + points).
    { apply number_add_exact. specialize (Hrange loaded Hin).
      unfold MAX_EXACT in *. lia. }
    destruct (set_points_found i (User.totalPoints loaded + points) _ _ Hfind)
      as (us' & Hset' & Hfound & Hothers & _).
    rewrite Hsum, Hid, Hset' in Hset. injection Hset as <-.
    intros j u Hj. destruct (N.eq_dec j i) as [-> | Hne].
    + rewrite Hfind in Hj. injection Hj as <-.
      eexists. split; [exact Hfound |]. cbn. split; [reflexivity | lia].
    + exists u. rewrite (Hothers j Hne). repeat split; [exact Hj | lia].
  - destruct (seedDatabase env w) as [o w'] eqn:Hrun. cbn [snd].
    apply seedDatabase_users in Hrun as ((added & ->) & _).
    apply keeps_users_app.
Qed.

Lemma seeded_within_exact_range : within_exact_range (users seeded_world).
Proof.
  intros u Hin.
  pose proof (seeded_points 1%N initialUsers) as Hzero.
  rewrite Forall_forall in Hzero. rewrite (Hzero u Hin). reflexivity.
Qed.

Lemma users_are_kept_witness :
  keeps_users (users seeded_world)
    (users (snd (post_api_users calm (claim_by sanak) seeded_world)))
  /\ keeps_users (users seeded_world)
       (users (snd (post_api_claim calm (claim_by sanak) seeded_world)))
  /\ keeps_users (users seeded_world)
       (users (snd (seedDatabase calm seeded_world))).
Proof.
  apply (users_are_kept calm (claim_by sanak) seeded_world).
  - reflexivity.
  - exact seeded_within_exact_range.
Defined.

(** X8: a claim for the identifier [i], whatever its outcome, adds no user,
    removes none, renames none, and leaves the document of every other
    identifier exactly as it was. *)
Theorem claim_touches_one_user
    (env : Env) (req_body : RequestBody) (w : World) (i : ObjectId) :
  cast_ObjectId (field "userId" req_body) = Some i ->
  let w' := snd (post_api_claim env req_body w) in
  map User._id (users w') = map User._id (users w)
  /\ map User.name (users w') = map User.name (users w)
  /\ forall j, j <> i -> find (has_id j) (users w') = find (has_id j) (users w).
Proof.
  intros Hcast w'. subst w'.
  destruct (post_api_claim env req_body w) as [o w'] eqn:Hrun. cbn [snd].
  apply post_api_claim_users in Hrun as [-> | (i' & loaded & Hcast' & Hfind & Hset)];
    [auto |].
  rewrite Hcast in Hcast'. injection Hcast' as <-.
  destruct (set_points_shape _ _ _ _ Hset) as [Hids Hnames].
  repeat split; [exact Hids | exact Hnames |].
  destruct (find_has_id _ _ _ Hfind) as [Hid _].
  destruct (set_points_found i
              (number_add (User.totalPoints loaded) (random_points (random env)))
              _ _ Hfind) as (us' & Hset' & _ & Hothers & _).
  rewrite Hid, Hset' in Hset. injection Hset as <-. exact Hothers.
Qed.

Lemma claim_touches_one_user_witness :
  map User._id (users (snd (post_api_claim calm (claim_by sanak) seeded_world)))
  = map User._id (users seeded_world)
  /\ map User.name (users (snd (post_api_claim calm (claim_by sanak) seeded_world)))
     = map User.name (users seeded_world)
  /\ forall j, j <> 3%N ->
       find (has_id j) (users (snd (post_api_claim calm (claim_by sanak) seeded_world)))
       = find (has_id j) (users seeded_world).
Proof.
  apply (claim_touches_one_user calm (claim_by sanak) seeded_world 3%N).
  reflexivity.
Defined.

(** X9: a claim answered 200 has appended exactly one history entry, which
    references the claiming user and records the very amount the response
    reports as [pointsAwarded]. *)
Theorem claim_records_history
    (env : Env) (req_body : RequestBody) (w w' : World) (r : Response)
    (i : ObjectId) :
  cast_ObjectId (field "userId" req_body) = Some i ->
  post_api_claim env req_body w = (Ok r, w') ->
  status r = 200 ->
  exists (h : ClaimHistory.t) (message : string) (user : User.t),
    claims w' = claims w ++ [h]
    /\ ClaimHistory.userId h = i
    /\ ClaimHistory.pointsClaimed h = random_points (random env)
    /\ body r = RClaim message (ClaimHistory.pointsClaimed h) user.
Proof.
  intros Hcast Hrun Hstatus.
  destruct (post_api_claim_success _ _ _ _ _ Hrun Hstatus)
    as (i' & loaded & us' & Hcast' & Hfind & _ & _ & Hclaims & _ & Hr).
  rewrite Hcast in Hcast'. injection Hcast' as <-.
  destruct (find_has_id _ _ _ Hfind) as [Hid _].
  eexists _, _, _. split; [exact Hclaims |].
  cbn [ClaimHistory.userId ClaimHistory.pointsClaimed]. rewrite Hr. cbn [body].
  split; [exact Hid |]. split; reflexivity.
Qed.

Lemma claim_records_history_witness :
  exists (h : ClaimHistory.t) (message : string) (user : User.t),
    claims (snd (post_api_claim calm (claim_by sanak) seeded_world))
    = claims seeded_world ++ [h]
    /\ ClaimHistory.userId h = 3%N
    /\ ClaimHistory.pointsClaimed h = random_points (random calm)
    /\ body (mkResponse 200
               (RClaim "Awarded 6 points to Sanak" 6 (User.mk 3%N "Sanak" 6)))
       = RClaim message (ClaimHistory.pointsClaimed h) user.
Proof.
  apply (claim_records_history calm (claim_by sanak) seeded_world
           (snd (post_api_claim calm (claim_by sanak) seeded_world))
           (mkResponse 200
              (RClaim "Awarded 6 points to Sanak" 6 (User.mk 3%N "Sanak" 6)))
           3%N).
  - reflexivity.
  - vm_compute. reflexivity.
  - reflexivity.
Defined.

Lemma claimed_by_app (i : ObjectId) (a b : list ClaimHistory.t) :
  claimed_by i (a ++ b) = claimed_by i a + claimed_by i b.
Proof. induction a as [| h a IH]; cbn; [reflexivity | rewrite IH; lia]. Qed.

(** X10: a claim answered 200 keeps the books balanced: if every user's
    points were the sum of that user's history entries before it, they are
    after it, the points update and the history insert having moved
    together (identifiers being distinct, the stored points within the
    exact range). *)
Theorem claim_keeps_balance
    (env : Env) (req_body : RequestBody) (w w' : World) (r : Response) :
  balanced w ->
  NoDup (map User._id (users w)) ->
  is_random_draw (random env) = true ->
  within_exact_range (users w) ->
  post_api_claim env req_body w = (Ok r, w') ->
  status r = 200 ->
  balanced w'.
Proof.
  intros Hbal Hnodup Hdraw Hrange Hrun Hstatus.
  destruct (post_api_claim_success _ _ _ _ _ Hrun Hstatus)
    as (i & loaded & us' & _ & Hfind & Hset & Hus & Hclaims & _).
  destruct (find_has_id _ _ _ Hfind) as [Hid Hin].
  pose proof (random_points_range _ Hdraw) as Hpoints.
  set (points := random_points (random env)) in *.
  assert (Hsum : number_add (User.totalPoints loaded) points
                 = User.totalPoints loaded + points).
  { apply number_add_exact. specialize (Hrange loaded Hin).
    unfold MAX_EXACT in *. lia. }
  cbn [User.totalPoints] in Hset. rewrite Hsum, Hid in Hset.
  intros u' Hu'. rewrite Hus in Hu'. rewrite Hclaims, claimed_by_app. cbn.
  rewrite Hid.
  destruct (set_points_In _ _ _ _ Hset Hnodup u' Hu') as [[Hold Hne] | [Heq Hnew]].
  - destruct (N.eqb_spec i (User._id u')); [congruence |].
    rewrite (Hbal u' Hold). lia.
  - rewrite Heq, N.eqb_refl, Hnew.
    rewrite (Hbal loaded Hin), Hid. lia.
Qed.

Lemma claim_keeps_balance_witness :
  balanced (snd (post_api_claim calm (claim_by rahul) grown_world)).
Proof.
  apply (claim_keeps_balance calm (claim_by rahul) grown_world
           (snd (post_api_claim calm (claim_by rahul) grown_world))
           (mkResponse 200
              (RClaim "Awarded 6 points to Rahul" 6 (User.mk 1%N "Rahul" 10)))).
  - intros u [<- | [<- | []]]; reflexivity.
  - repeat constructor; cbn; intuition discriminate.
  - reflexivity.
  - intros u [<- | [<- | []]]; reflexivity.
  - vm_compute. reflexivity.
  - reflexivity.
Defined.

(* ------------------------------------------------------------------ *)
(** *** More on the leaderboard *)

Lemma rank_from_bound (i : nat) (us : list User.t) (e : Entry.t) :
  In e (rank_from i us) ->
  Z.of_nat i + 1 <= Entry.rank e
  /\ exists u, In u us /\ Entry.totalPoints e = User.totalPoints u.
Proof.
  revert i. induction us as [| u us IH]; intros i; cbn; [tauto |].
  intros [<- | Hin].
  - cbn. split; [lia |]. exists u. auto.
  - destruct (IH _ Hin) as (Hrank & v & Hv & Hpoints).
    split; [lia |]. exists v. auto.
Qed.

Lemma rank_from_order (i : nat) (us : list User.t) :
  StronglySorted outranks us ->
  forall e1 e2,
    In e1 (rank_from i us) -> In e2 (rank_from i us) ->
    Entry.totalPoints e1 > Entry.totalPoints e2 ->
    Entry.rank e1 < Entry.rank e2.
Proof.
  intros Hsorted. revert i.
  induction Hsorted as [| u us Hs IH Hu]; intros i e1 e2; cbn; [tauto |].
  rewrite Forall_forall in Hu.
  intros [<- | H1] [<- | H2] Hgt; cbn in *.
  - lia.
  - destruct (rank_from_bound _ _ _ H2) as [Hrank _]. lia.
  - destruct (rank_from_bound _ _ _ H1) as (_ & v & Hv & Hpoints).
    specialize (Hu v Hv). unfold outranks in Hu. lia.
  - now apply (IH (S i)).
Qed.

(** X11: on the leaderboard more points mean a better rank: of any two
    entries, the one with strictly more points has the strictly smaller
    rank. *)
Theorem more_points_better_rank (us : list User.t) (e1 e2 : Entry.t) :
  In e1 (leaderboard_of us) ->
  In e2 (leaderboard_of us) ->
  Entry.totalPoints e1 > Entry.totalPoints e2 ->
  Entry.rank e1 < Entry.rank e2.
Proof. apply rank_from_order, sort_desc_sorted. Qed.

Lemma more_points_better_rank_witness :
  Entry.rank (Entry.mk 1 "Kamal" 9 2%N) < Entry.rank (Entry.mk 2 "Rahul" 4 1%N).
Proof.
  apply (more_points_better_rank (users grown_world)).
  - vm_compute. auto.
  - vm_compute. auto.
  - reflexivity.
Defined.

Lemma rank_from_users (i : nat) (us : list User.t) :
  map entry_user (rank_from i us) = us.
Proof.
  revert i. induction us as [| u us IH]; intros i; cbn; [reflexivity |].
  rewrite IH. destruct u. reflexivity.
Qed.

(** X12: the leaderboard lists every stored user exactly once, with that
    user's own identifier, name and points: read back as users, its
    entries are a rearrangement of the collection. *)
Theorem leaderboard_lists_everyone (us : list User.t) :
  Permutation (map entry_user (leaderboard_of us)) us.
Proof.
  unfold leaderboard_of. rewrite rank_from_users.
  apply Permutation_sym, sort_desc_perm.
Qed.

(* ------------------------------------------------------------------ *)
(** *** Sockets *)

Lemma on_connection_rejected (env : Env) (sid : string) (w : World) (e : Error) :
  faults env CallFindSorted = Some e ->
  on_connection env sid w
  = (Throw e,
     mkWorld (users w) (claims w) (next_id w) (sockets w ++ [mkSocket sid []])
       (console w ++ [Log (String.append "A user connected: " sid)])
       (issued w ++ [CallFindSorted])).
Proof.
  intros Hfault. destruct w as [us cs nid ss con iss].
  unfold_handler. rewrite Hfault. reflexivity.
Qed.

(** X13: the connection handler does not catch a rejected leaderboard
    read: its promise is rejected with that very error, and up to the
    rejection it has emitted nothing, neither to the connecting client nor
    to any other, and has written to neither collection.  What the runtime
    does with the unhandled rejection afterwards is not stated. *)
Theorem connection_read_rejected
    (env : Env) (sid : string) (w : World) (e : Error) :
  faults env CallFindSorted = Some e ->
  let rejected := on_connection env sid w in
  fst rejected = Throw e
  /\ map inbox (sockets (snd rejected)) = map inbox (sockets w) ++ [[]]
  /\ users (snd rejected) = users w
  /\ claims (snd rejected) = claims w.
Proof.
  intros Hfault rejected. subst rejected.
  rewrite (on_connection_rejected env sid w e Hfault).
  cbn [fst snd sockets users claims]. rewrite map_app. auto.
Qed.

Lemma connection_read_rejected_witness :
  fst (on_connection board_down "phone" seeded_world) = Throw MongoNetworkError
  /\ map inbox (sockets (snd (on_connection board_down "phone" seeded_world)))
     = map inbox (sockets seeded_world) ++ [[]]
  /\ users (snd (on_connection board_down "phone" seeded_world)) = users seeded_world
  /\ claims (snd (on_connection board_down "phone" seeded_world)) = claims seeded_world.
Proof.
  apply (connection_read_rejected board_down "phone" seeded_world MongoNetworkError).
  reflexivity.
Defined.

Lemma filter_other_sockets (sid : string) (ss : list Socket) :
  existsb (fun s => String.eqb (socket_id s) sid) ss = false ->
  filter (fun s => negb (String.eqb (socket_id s) sid)) ss = ss.
Proof.
  induction ss as [| s ss IH]; cbn; [reflexivity |].
  intros H. apply orb_false_iff in H as [Hs Hss].
  rewrite Hs. cbn. now rewrite IH.
Qed.

(** X14: a client that connects under a new id, is sent its leaderboard,
    and disconnects leaves the set of connected clients, their inboxes and
    both collections exactly as they were; the disconnection broadcasts
    nothing. *)
Theorem connect_then_disconnect (env : Env) (sid : string) (w : World) :
  faults env CallFindSorted = None ->
  existsb (fun s => String.eqb (socket_id s) sid) (sockets w) = false ->
  let connected := snd (on_connection env sid w) in
  let gone := snd (on_disconnect sid connected) in
  fst (on_connection env sid w) = Ok tt
  /\ sockets gone = sockets w /\ users gone = users w /\ claims gone = claims w.
Proof.
  intros Hfault Hnew connected gone. subst connected gone.
  rewrite (on_connection_ok env sid w Hfault Hnew). cbn [fst snd].
  split; [reflexivity |].
  destruct w as [us cs nid ss con iss]. cbn in *.
  repeat split.
  rewrite filter_app. cbn -[String.eqb]. rewrite String.eqb_refl. cbn.
  rewrite app_nil_r. now apply filter_other_sockets.
Qed.

Lemma connect_then_disconnect_witness :
  fst (on_connection calm "phone" seeded_world) = Ok tt
  /\ sockets (snd (on_disconnect "phone" (snd (on_connection calm "phone" seeded_world))))
  = sockets seeded_world
  /\ users (snd (on_disconnect "phone" (snd (on_connection calm "phone" seeded_world))))
     = users seeded_world
  /\ claims (snd (on_disconnect "phone" (snd (on_connection calm "phone" seeded_world))))
     = claims seeded_world.
Proof.
  apply (connect_then_disconnect calm "phone" seeded_world); reflexivity.
Defined.

(* ------------------------------------------------------------------ *)
(** *** Seeding and startup *)

Lemma seedDatabase_resolves (env : Env) (w : World) :
  fst (seedDatabase env w) = Ok tt.
Proof.
  unfold seedDatabase, try_catch.
  match goal with |- context [(?m) w] =>
    lazymatch m with
    | bind _ _ => destruct (m w) as [[[] | e] w1]
    end
  end; reflexivity.
Qed.

(** X15: the seeding never rejects: a rejected count logs the error and
    stops there, and on an empty collection a rejected batch insert logs
    the error and leaves the collection empty. *)
Theorem seeding_failure_is_logged (env : Env) (w : World) :
  fst (seedDatabase env w) = Ok tt
  /\ (forall e,
        faults env CallCountDocuments = Some e ->
        users (snd (seedDatabase env w)) = users w
        /\ issued (snd (seedDatabase env w)) = issued w ++ [CallCountDocuments]
        /\ console (snd (seedDatabase env w))
           = console w ++ [LogError "Error seeding database:" e])
  /\ (forall e,
        users w = [] ->
        faults env CallCountDocuments = None ->
        faults env (CallInsertMany 10) = Some e ->
        users (snd (seedDatabase env w)) = []
        /\ console (snd (seedDatabase env w))
           = (console w ++ [Log "No users found, seeding database..."])
               ++ [LogError "Error seeding database:" e]).
Proof.
  split; [| split].
  - apply seedDatabase_resolves.
  - intros e Hcount. destruct w as [us cs nid ss con iss].
    cbv beta iota zeta delta
      [seedDatabase try_catch bind User_countDocuments call gets ret
       console_log console_error modify set_issued set_console
       users claims next_id sockets console issued].
    rewrite Hcount. cbn. auto.
  - intros e Hempty Hcount Hmany. destruct w as [us cs nid ss con iss].
    cbn [users] in Hempty. subst us.
    unfold seedDatabase, try_catch, bind, User_countDocuments, call, gets, ret.
    rewrite Hcount.
    unfold set_issued, console_log, console_error, modify, User_insertMany, bind.
    cbn [users claims next_id sockets console issued List.length Z.of_nat Z.eqb].
    change (map (fun name => [("name"%string, VString name)]) initialUsers)
      with (map name_doc initialUsers).
    rewrite new_Users_named, validated_drafts.
    unfold call. rewrite seeded_length.
    change (List.length initialUsers) with 10%nat. rewrite Hmany.
    cbn. auto.
Qed.

Lemma seeding_failure_is_logged_witness :
  fst (seedDatabase database_down fresh_database) = Ok tt
  /\ users (snd (seedDatabase database_down fresh_database)) = users fresh_database
  /\ issued (snd (seedDatabase database_down fresh_database))
     = issued fresh_database ++ [CallCountDocuments]
  /\ console (snd (seedDatabase database_down fresh_database))
     = console fresh_database
       ++ [LogError "Error seeding database:" MongoNetworkError].
Proof.
  split.
  - exact (proj1 (seeding_failure_is_logged database_down fresh_database)).
  - apply (proj1 (proj2 (seeding_failure_is_logged database_down fresh_database))).
    reflexivity.
Defined.

(** X16: seeding is idempotent: once an empty collection has been seeded,
    a second run of the seeding, whatever the storage layer then answers,
    leaves the ten users as they are. *)
Theorem seeding_twice (env again : Env) (w : World) :
  users w = [] ->
  faults env CallCountDocuments = None ->
  faults env (CallInsertMany 10) = None ->
  let once := snd (seedDatabase env w) in
  users (snd (seedDatabase again once)) = users once
  /\ List.length (users once) = 10%nat.
Proof.
  intros Hempty Hcount Hmany once. subst once.
  rewrite (seedDatabase_empty env w Hempty Hcount Hmany). cbn [snd].
  split.
  - apply seedDatabase_nonempty. cbn. discriminate.
  - cbn [users]. now rewrite seeded_length.
Qed.

Lemma seeding_twice_witness :
  users (snd (seedDatabase database_down (snd (seedDatabase calm fresh_database))))
  = users (snd (seedDatabase calm fresh_database))
  /\ List.length (users (snd (seedDatabase calm fresh_database))) = 10%nat.
Proof.
  apply (seeding_twice calm database_down fresh_database); reflexivity.
Defined.

(** X17: the startup chain never rejects; when the connection attempt
    fails, the error is logged and no storage call is issued; when it
    succeeds, the state is that of the seeding after the success message. *)
Theorem startup_outcomes (env : Env) (w : World) :
  (forall connection, fst (startup env connection w) = Ok tt)
  /\ (forall err,
        snd (startup env (Some err) w)
        = set_console (console w ++ [LogError "MongoDB connection error:" err]) w)
  /\ snd (startup env None w)
     = snd (seedDatabase env
              (set_console (console w ++ [Log "MongoDB connected successfully"]) w)).
Proof.
  split; [| split].
  - intros [err |]; unfold startup, console_error, console_log, modify, bind.
    + reflexivity.
    + pose proof (seedDatabase_resolves env
                    (set_console (console w ++ [Log "MongoDB connected successfully"]) w))
        as Hok.
      destruct (seedDatabase env _) as [o w1]. cbn in Hok. now subst.
  - intros err. reflexivity.
  - unfold startup, console_log, modify, bind.
    destruct (seedDatabase env _) as [[[] | e] w1]; reflexivity.
Qed.

(* ------------------------------------------------------------------ *)
(** *** The award *)

(** X18: every award from 1 to 10 can be drawn: for each of the ten values
    there is a number [Math.random] can return that yields it. *)
Theorem every_award_is_drawn (k : Z) :
  1 <= k <= 10 ->
  exists r : double, is_random_draw r = true /\ random_points r = k.
Proof.
  intros Hk.
  assert (Hcases : k = 1 \/ k = 2 \/ k = 3 \/ k = 4 \/ k = 5
                   \/ k = 6 \/ k = 7 \/ k = 8 \/ k = 9 \/ k = 10) by lia.
  destruct Hcases as [-> | [-> | [-> | [-> | [-> | [-> | [-> | [-> | [-> | ->]]]]]]]]].
  - exists (Double 0 (-4)). split; vm_compute; reflexivity.
  - exists (Double 2 (-4)). split; vm_compute; reflexivity.
  - exists (Double 4 (-4)). split; vm_compute; reflexivity.
  - exists (Double 5 (-4)). split; vm_compute; reflexivity.
  - exists (Double 7 (-4)). split; vm_compute; reflexivity.
  - exists (Double 8 (-4)). split; vm_compute; reflexivity.
  - exists (Double 10 (-4)). split; vm_compute; reflexivity.
  - exists (Double 12 (-4)). split; vm_compute; reflexivity.
  - exists (Double 13 (-4)). split; vm_compute; reflexivity.
  - exists (Double 15 (-4)). split; vm_compute; reflexivity.
Qed.

Lemma every_award_is_drawn_witness :
  exists r : double, is_random_draw r = true /\ random_points r = 7.
Proof. apply (every_award_is_drawn 7). lia. Defined.

(* ------------------------------------------------------------------ *)
(** *** Broadcasts *)

(** X19: one request causes at most one broadcast: after any run of the
    registration or of the claim handler the connected clients are the same
    and either nobody has received anything or everybody has received the
    same single [leaderboardUpdate]. *)
Theorem at_most_one_broadcast (env : Env) (req_body : RequestBody) (w : World) :
  (sockets (snd (post_api_users env req_body w)) = sockets w
   \/ exists board,
        sockets (snd (post_api_users env req_body w))
        = map (deliver (mkEvent LEADERBOARD_UPDATE board)) (sockets w))
  /\ (sockets (snd (post_api_claim env req_body w)) = sockets w
      \/ exists board,
           sockets (snd (post_api_claim env req_body w))
           = map (deliver (mkEvent LEADERBOARD_UPDATE board)) (sockets w))
  /\ map socket_id (sockets (snd (post_api_users env req_body w)))
     = map socket_id (sockets w)
  /\ map socket_id (sockets (snd (post_api_claim env req_body w)))
     = map socket_id (sockets w).
Proof.
  assert (Hids : forall ev ss, map socket_id (map (deliver ev) ss) = map socket_id ss).
  { intros ev ss. rewrite map_map. reflexivity. }
  destruct w as [us cs nid ss con iss].
  repeat split; unfold_handler; split_tests; cbn [snd sockets];
    auto; try (right; eexists; reflexivity).
Qed.
